(** * The IPvGO scripting layer of bitburner-src, embedded in Rocq

    The development follows the React wrapper [GoGameboardWrapper], the
    module [Go/effects/netscriptGoImplementation] and the [ns.go] API table
    of [NetscriptFunctions/Go.ts].

    Conventions of the embedding:
    - JavaScript numbers that carry coordinates and sizes are integers [Z];
      counters that start at 0 and only grow by [++] are [nat]; probabilities
      are exact rationals [Q] (rounding of IEEE doubles is not modelled).
    - The process-wide singletons [Go], [Player], the event emitter
      [GoEvents] and the script log are the fields of one record [World];
      every function of the source that touches them is a computation in the
      state-and-exception monad [M].
    - [throw] of JavaScript leaves the heap as it is: a computation that
      throws returns the world reached at the throw. *)

From Stdlib Require Import ZArith QArith Qminmax Qpower Lia.
From stdpp Require Import base option list strings.

Local Open Scope Z_scope.

(** ** Enumerations ([@enums]) *)

Module GoColor.
Inductive t := white | black | empty.
#[global] Instance eq_dec : EqDecision t.
Proof. solve_decision. Defined.
End GoColor.

(** Modelled from the spec: the members of the enum [GoOpponent] ([@enums] is
    not part of the sources).  The code names two of them, the "no opponent"
    sentinel [none] and the special opponent [w0r1d_d43m0n]; every other
    opponent identity is a faction, kept by its name. *)
Module GoOpponent.
Inductive t := none | w0r1d_d43m0n | faction (name : string).
#[global] Instance eq_dec : EqDecision t.
Proof. solve_decision. Defined.
End GoOpponent.

(** Modelled from the spec: the members of the enum [GoValidity] (section 4.3
    of the specification lists them). *)
Module GoValidity.
Inductive t :=
  valid | outOfBounds | pointNotEmpty | noSuicide | boardRepeated | notYourTurn | gameOver.
#[global] Instance eq_dec : EqDecision t.
Proof. solve_decision. Defined.
End GoValidity.

Module GoPlayType.
Inductive t := move | pass | gameOver.
#[global] Instance eq_dec : EqDecision t.
Proof. solve_decision. Defined.
End GoPlayType.

(** ** Board, game state, play ([../Types]) *)

(** One point of the board, with the fields written by
    [cheatRepairOfflineNode]: [{ chain, liberties, y, color, x }]. *)
Module PointState.
Record t := mk {
  color : GoColor.t;
  chain : string;
  liberties : option (list (Z * Z));
  x : Z;
  y : Z
}.
Definition setColor (c : GoColor.t) (p : t) : t :=
  mk c (chain p) (liberties p) (x p) (y p).
End PointState.

(** [board[x][y]] is a point, or [null] for an offline node. *)
Abbreviation Board := (list (list (option PointState.t))).

Record BoardState := mkBoardState {
  board : Board;
  previousPlayer : option GoColor.t;   (* null once the game is over *)
  previousBoards : list string;
  ai : GoOpponent.t;
  passCount : nat;
  cheatCount : nat
}.

Definition setBoard (b : Board) (s : BoardState) : BoardState :=
  mkBoardState b (previousPlayer s) (previousBoards s) (ai s) (passCount s) (cheatCount s).
Definition setPreviousPlayer (p : option GoColor.t) (s : BoardState) : BoardState :=
  mkBoardState (board s) p (previousBoards s) (ai s) (passCount s) (cheatCount s).
Definition setPreviousBoards (h : list string) (s : BoardState) : BoardState :=
  mkBoardState (board s) (previousPlayer s) h (ai s) (passCount s) (cheatCount s).
Definition setPassCount (n : nat) (s : BoardState) : BoardState :=
  mkBoardState (board s) (previousPlayer s) (previousBoards s) (ai s) n (cheatCount s).
Definition setCheatCount (n : nat) (s : BoardState) : BoardState :=
  mkBoardState (board s) (previousPlayer s) (previousBoards s) (ai s) (passCount s) n.

Record Play := mkPlay {
  playType : GoPlayType.t;
  playX : option Z;
  playY : option Z
}.

(** A promise of the opponent's play, as stored in [Go.nextTurn] and returned
    by the move-resolving entry points.  A promise that is still pending
    remembers the identity of the game object its selector was started on
    (the argument of [makeAIMove]). *)
Inductive Turn :=
| Resolved (p : Play)
| Thinking (target : nat).

(** ** Messages

    Every template literal passed to [error] or [logger] is one constructor,
    its interpolated values are the arguments. *)

(** [`${methodName} ${x},${y}: `] *)
Record MoveString := mkMoveString {
  msMethod : string;
  msCoords : option (Z * Z)
}.

Inductive Message :=
| InvalidColumn (x maxIndex : Z)
| InvalidRow (y maxIndex : Z)
| TurnRejected (moveString : MoveString) (v : GoValidity.t)
| NodeOffline (x y : Z) (methodName : string)
| WouldBeCaptured (moveString : MoveString) (v : GoValidity.t)
| WouldRepeat (moveString : MoveString) (v : GoValidity.t)
| PointOccupied (x y : Z) (methodName : string)
| NoRouterThere (x y : Z)
| NodeNotOffline (x y : Z)
| InvalidMove (x y : Z) (v : GoValidity.t)
| InvalidSubnetSize (boardSize : Z)
| InvalidOpponent (opponent : GoOpponent.t)
| CheatApiLocked
| MovePlayed (x y : Z)
| NewGameStarted (opponent : GoOpponent.t) (boardSize : Z)
| CheatEjected
| CheatSkipped
| PointCleared (x y : Z)
| TwoMovesPlayed (x1 y1 x2 y2 : Z)
| PointRepaired (x y : Z)
| PointDestroyed (x y : Z).

(** What a computation can throw: the error built by [errorMessage] in
    [Go.ts], or the [TypeError] of JavaScript on reading a property of
    [undefined] or [null]. *)
Inductive Thrown :=
| ScriptError (m : Message)
| TypeError.

(** ** The singletons *)

(** The part of [Player] the Go layer reads. *)
Record PlayerData := mkPlayer {
  sourceFileLvl : Z -> Z;
  bitNodeN : Z;
  crime_success : Q;          (* Player.mults.crime_success *)
  hasTheRedPill : bool;       (* Player.hasAugmentation(TheRedPill, true) *)
  totalPlaytime : Z
}.

(** Per-opponent statistics, with the fields [getStats] copies. *)
Record OpponentStats := mkStats {
  wins : Z;
  losses : Z;
  winStreak : Z;
  highestWinStreak : Z;
  favor : Z;
  nodePower : Q
}.

Definition Stats := GoOpponent.t -> OpponentStats.

(** State of the hooks of [GoGameboardWrapper]. *)
Record UiState := mkUi {
  scoreOpen : bool;
  searchOpen : bool;
  renders : nat
}.

Record World := mkWorld {
  currentGame : BoardState;   (* Go.currentGame *)
  gameId : nat;               (* which object Go.currentGame refers to *)
  nextTurn : Turn;            (* Go.nextTurn *)
  stats : Stats;              (* Go.stats *)
  player : PlayerData;        (* Player *)
  emitted : nat;              (* number of GoEvents.emit() so far *)
  log : list Message;         (* lines written through logger *)
  ui : UiState
}.

(** Mutation of the object [Go.currentGame] refers to. *)
Definition updGame (f : BoardState -> BoardState) (w : World) : World :=
  mkWorld (f (currentGame w)) (gameId w) (nextTurn w) (stats w) (player w)
          (emitted w) (log w) (ui w).
(** [Go.currentGame = s] for a freshly built [s]: a new object, a new identity. *)
Definition replaceGame (s : BoardState) (w : World) : World :=
  mkWorld s (S (gameId w)) (nextTurn w) (stats w) (player w) (emitted w) (log w) (ui w).
Definition setNextTurn (t : Turn) (w : World) : World :=
  mkWorld (currentGame w) (gameId w) t (stats w) (player w) (emitted w) (log w) (ui w).
Definition updStats (f : Stats -> Stats) (w : World) : World :=
  mkWorld (currentGame w) (gameId w) (nextTurn w) (f (stats w)) (player w)
          (emitted w) (log w) (ui w).
Definition emitEvent (w : World) : World :=
  mkWorld (currentGame w) (gameId w) (nextTurn w) (stats w) (player w)
          (S (emitted w)) (log w) (ui w).
Definition appendLog (m : Message) (w : World) : World :=
  mkWorld (currentGame w) (gameId w) (nextTurn w) (stats w) (player w)
          (emitted w) (log w ++ [m]) (ui w).
Definition updUi (f : UiState -> UiState) (w : World) : World :=
  mkWorld (currentGame w) (gameId w) (nextTurn w) (stats w) (player w)
          (emitted w) (log w) (f (ui w)).

(** ** The monad of effects *)

Inductive Outcome (A : Type) :=
| Returned (a : A)
| Threw (e : Thrown).
Arguments Returned {A} a.
Arguments Threw {A} e.

Definition M (A : Type) : Type := World -> Outcome A * World.

#[global] Instance M_ret : MRet M := fun A a w => (Returned a, w).
#[global] Instance M_bind : MBind M := fun A B f m w =>
  match m w with
  | (Returned a, w') => f a w'
  | (Threw e, w') => (Threw e, w')
  end.

Definition gets {A : Type} (f : World -> A) : M A := fun w => (Returned (f w), w).
Definition modify (f : World -> World) : M unit := fun w => (Returned tt, f w).
Definition throw {A : Type} (e : Thrown) : M A := fun w => (Threw e, w).
(** [if (b) c;] *)
Definition when (b : bool) (c : M unit) : M unit := if b then c else mret tt.

(** The two callbacks every API function of [Go.ts] hands down:
    [error(ctx)] throws, [logger(ctx)] writes a line. *)
Definition error (m : Message) : M unit := throw (ScriptError m).
Definition logger (m : Message) : M unit := modify (appendLog m).
(** [GoEvents.emit()] *)
Definition GoEvents_emit : M unit := modify emitEvent.

(** ** JavaScript arrays *)

(** [a[i]]: [undefined] (here [None]) outside the elements. *)
Definition at_ {A : Type} (l : list A) (i : Z) : option A :=
  if i <? 0 then None else l !! Z.to_nat i.

(** [a[i] = v] on an array of nullable elements: inside the array the slot
    is overwritten; past the end the array grows, the skipped slots are holes
    (read as [undefined]); a negative index adds a property and leaves the
    elements as they are. *)
Definition assignAt {A : Type} (l : list (option A)) (i : Z) (v : option A) : list (option A) :=
  if i <? 0 then l
  else
    let n := Z.to_nat i in
    if (n <? length l)%nat then <[n := v]> l
    else l ++ replicate (n - length l)%nat None ++ [v].

(** [board[x][y]]: a [TypeError] when the column [board[x]] is [undefined];
    otherwise the point, [null] and [undefined] both read as [None]. *)
Definition boardAt (b : Board) (x y : Z) : M (option PointState.t) :=
  match at_ b x with
  | None => throw TypeError
  | Some column => mret (mjoin (at_ column y))
  end.

(** [board[x][y] = v] *)
Definition boardAssign (x y : Z) (v : option PointState.t) : M unit :=
  b ← gets (fun w => board (currentGame w));
  match at_ b x with
  | None => throw TypeError
  | Some column =>
      modify (updGame (setBoard (<[Z.to_nat x := assignAt column y v]> b)))
  end.

(** [point.color = c] for a [point] read earlier from [board[x][y]] of the
    current game, in the same synchronous run: the object written is the one
    stored at (x, y).  A [null] point throws. *)
Definition pointSetColor (point : option PointState.t) (x y : Z) (c : GoColor.t) : M unit :=
  match point with
  | None => throw TypeError
  | Some p => boardAssign x y (Some (PointState.setColor c p))
  end.

(** ** Rational comparison *)

Definition Qlt_bool (a b : Q) : bool := negb (Qle_bool b a).

(** ** Collaborators outside the sources

    The rules engine ([../boardState/boardState], [../boardAnalysis/*]) and
    the random number generator ([../../Casino/RNG]) are imported by the
    sources but are not among them.  The API layer is verified for every
    implementation of these functions: they are the fields of a class, and
    each function below takes them from the instance in scope.  In-place
    updates of a board are functions from the board before to the board
    after. *)
Class Engine := {
  (* evaluateIfMoveIsValid(boardState, x, y, player) *)
  evaluateIfMoveIsValid : BoardState -> Z -> Z -> GoColor.t -> GoValidity.t;
  (* updateChains(board) *)
  updateChains : Board -> Board;
  (* updateCaptures(board, player) *)
  updateCaptures : Board -> GoColor.t -> Board;
  (* getNewBoardState(boardSize, ai, applyObstacles) *)
  getNewBoardState : Z -> GoOpponent.t -> bool -> BoardState;
  (* the compact one-character-per-cell form kept in previousBoards *)
  boardString : Board -> string;
  (* simpleBoardFromBoard(board) *)
  simpleBoardFromBoard : Board -> list string;
  (* resetWinstreak(opponent, gameComplete), on Go.stats *)
  resetWinstreak : GoOpponent.t -> bool -> Stats -> Stats;
  (* the update of Go.stats when a game ends *)
  recordGameEnd : BoardState -> Stats -> Stats;
  (* resolveCurrentTurn(), on the promise Go.nextTurn *)
  resolveCurrentTurn : Turn -> Turn;
  (* the i-th value of rng.random() for rng = new WHRNG(seed) *)
  WHRNG_random : Z -> nat -> Q
}.

Section Implementation.
Context {engine : Engine}.

(** ** The move applicator, from the specification *)

(** Modelled from the spec: [endGoGame] of [../boardAnalysis/scoring] is not
    part of the sources.  Sections 3 and 4.4: the opponent statistics are
    updated at game end, and the game becomes terminal, that is, the previous
    player is set to null.  The callers embedded here pass the current game
    object. *)
Definition endGoGame : M unit :=
  s ← gets currentGame;
  modify (updStats (recordGameEnd s));;
  modify (updGame (setPreviousPlayer None)).

(** Modelled from the spec: [passTurn] of [../boardState/boardState] is not
    part of the sources.  Section 4.4: a pass increments the pass counter and
    sets the previous player to the passing colour; when the counter reaches
    two consecutive passes the game becomes terminal.  Section 4.7: the pass
    that skips a turn after a failed cheat (third argument [false]) is a pass
    without the game-ending effect.  The callers embedded here pass the
    current game object. *)
Definition passTurn (color : GoColor.t) (allowEndGame : bool) : M unit :=
  modify (updGame (fun s => setPreviousPlayer (Some color) (setPassCount (S (passCount s)) s)));;
  n ← gets (fun w => passCount (currentGame w));
  when (allowEndGame && (2 <=? n)%nat) endGoGame.

(** The stone written by a move: the point at (x, y) takes the colour. *)
Definition placeStone (b : Board) (x y : Z) (c : GoColor.t) : Board :=
  match at_ b x with
  | Some column =>
      match mjoin (at_ column y) with
      | Some p => <[Z.to_nat x := assignAt column y (Some (PointState.setColor c p))]> b
      | None => b
      end
  | None => b
  end.

(** Modelled from the spec: [makeMove] of [../boardState/boardState] is not
    part of the sources.  Section 4.4: the result is false, with no side
    effect, when the move is illegal; otherwise the stone is placed, captures
    are resolved, the board before the move is added to the history, the pass
    counter becomes 0 and the previous player becomes the mover.  The newest
    snapshot is [previousBoards[0]], where [getPriorMove] of the board
    wrapper reads it.  The callers embedded here pass the current game
    object. *)
Definition makeMove (x y : Z) (color : GoColor.t) : M bool :=
  s ← gets currentGame;
  if decide (evaluateIfMoveIsValid s x y color = GoValidity.valid) then
    modify (updGame (fun s =>
      setPreviousPlayer (Some color)
        (setPassCount 0
          (setPreviousBoards (boardString (board s) :: previousBoards s)
            (setBoard (updateCaptures (placeStone (board s) x y color) color) s)))));;
    mret true
  else mret false.

(** Modelled from the spec: [makeAIMove] of [../boardAnalysis/goAI] is not
    part of the sources.  Sections 4.6 and 5: the opponent's move is selected
    asynchronously; while it is pending the board is not mutated, only its
    eventual resolution does that.  The call itself only installs the pending
    promise, which remembers the game object it was given. *)
Definition makeAIMove (boardState : nat) : M Turn :=
  modify (setNextTurn (Thinking boardState));;
  mret (Thinking boardState).

(** Modelled from the spec: the resolution of a pending opponent turn (the
    continuation inside [makeAIMove], not part of the sources).  Section 4.6:
    the selected play is fed back through the same validate/apply path, or is
    a pass.  Section 5: on resolution the engine checks whether the game it
    targeted is still the current one; the result of a stale turn is
    discarded. *)
Definition resolveOpponentTurn (target : nat) (play : Play) : M Play :=
  current ← gets gameId;
  if decide (target = current) then
    match playType play, playX play, playY play with
    | GoPlayType.move, Some x, Some y => makeMove x y GoColor.white;; mret tt
    | GoPlayType.pass, _, _ => passTurn GoColor.white true
    | _, _, _ => mret tt
    end;;
    modify (setNextTurn (Resolved play));;
    GoEvents_emit;;
    mret play
  else mret play.

(** A write through a local alias [state] of a game object: the object is
    updated; the world shows it when [state] is still [Go.currentGame]. *)
Definition updObject (state : nat) (f : BoardState -> BoardState) (w : World) : World :=
  if decide (state = gameId w) then updGame f w else w.

(** ** [netscriptGoImplementation] *)

(** The switches of [validateMove]: [check = { ...defaults, ...settings }]. *)
Record Check := mkCheck {
  emptyNode : bool;
  requireNonEmptyNode : bool;
  repeatCheck : bool;           (* the key [repeat] *)
  onlineNode : bool;
  requireOfflineNode : bool;
  suicide : bool
}.

(** The object literal a caller passes as [settings]: a key is present or not. *)
Record Settings := mkSettings {
  emptyNode' : option bool;
  requireNonEmptyNode' : option bool;
  repeat' : option bool;
  onlineNode' : option bool;
  requireOfflineNode' : option bool;
  suicide' : option bool
}.

Definition noSettings : Settings := mkSettings None None None None None None.

Definition defaultCheck : Check := mkCheck true false true true false true.

Definition spread (d : Check) (s : Settings) : Check :=
  mkCheck (default (emptyNode d) (emptyNode' s))
          (default (requireNonEmptyNode d) (requireNonEmptyNode' s))
          (default (repeatCheck d) (repeat' s))
          (default (onlineNode d) (onlineNode' s))
          (default (requireOfflineNode d) (requireOfflineNode' s))
          (default (suicide d) (suicide' s)).

(** [point?.color] compared with [GoColor.empty]: a missing point has colour
    [undefined], which is not [empty]. *)
Definition colorIsEmpty (point : option PointState.t) : bool :=
  match point with
  | Some p => bool_decide (PointState.color p = GoColor.empty)
  | None => false
  end.

Definition validateTurn (error : Message -> M unit) (moveString : MoveString) : M unit :=
  previous ← gets (fun w => previousPlayer (currentGame w));
  when (bool_decide (previous = Some GoColor.black))
       (error (TurnRejected moveString GoValidity.notYourTurn));;
  when (bool_decide (previous = None))
       (error (TurnRejected moveString GoValidity.gameOver)).

Definition validateMove (error : Message -> M unit) (x y : Z)
    (methodName : string) (settings : Settings) : M unit :=
  let check := spread defaultCheck settings in
  boardSize ← gets (fun w => Z.of_nat (length (board (currentGame w))));
  when ((x <? 0) || (x >=? boardSize))
       (error (InvalidColumn x (boardSize - 1)));;
  when ((y <? 0) || (y >=? boardSize))
       (error (InvalidRow y (boardSize - 1)));;
  let moveString := mkMoveString methodName (Some (x, y)) in
  validateTurn error moveString;;
  game ← gets currentGame;
  let validity := evaluateIfMoveIsValid game x y GoColor.black in
  point ← boardAt (board game) x y;
  when (negb (bool_decide (is_Some point)) && onlineNode check)
       (error (NodeOffline x y methodName));;
  when (bool_decide (validity = GoValidity.noSuicide) && suicide check)
       (error (WouldBeCaptured moveString validity));;
  when (bool_decide (validity = GoValidity.boardRepeated) && repeatCheck check)
       (error (WouldRepeat moveString validity));;
  when (negb (colorIsEmpty point) && emptyNode check)
       (error (PointOccupied x y methodName));;
  when (colorIsEmpty point && requireNonEmptyNode check)
       (error (NoRouterThere x y));;
  when (bool_decide (is_Some point) && requireOfflineNode check)
       (error (NodeNotOffline x y)).

Definition makePlayerMove (logger error : Message -> M unit) (x y : Z) : M Turn :=
  boardState ← gets gameId;
  game ← gets currentGame;
  let validity := evaluateIfMoveIsValid game x y GoColor.black in
  moveWasMade ← makeMove x y GoColor.black;
  when (negb (bool_decide (validity = GoValidity.valid)) || negb moveWasMade)
       (error (InvalidMove x y validity));;
  GoEvents_emit;;
  logger (MovePlayed x y);;
  makeAIMove boardState.

(** [array.reduce(f, init)], where [f] receives the accumulator, the element
    and its index. *)
Fixpoint reduceFrom {A B : Type} (f : B -> A -> nat -> B) (i : nat) (acc : B) (l : list A) : B :=
  match l with
  | [] => acc
  | a :: rest => reduceFrom f (S i) (f acc a i) rest
  end.

Definition reduce {A B : Type} (f : B -> A -> nat -> B) (init : B) (l : list A) : B :=
  reduceFrom f 0 init l.

Definition getValidMoves : M (list (list bool)) :=
  boardState ← gets currentGame;
  mret (imap (fun x column =>
          reduce (fun validityArray (point : option PointState.t) y =>
                    let isValid :=
                      bool_decide (evaluateIfMoveIsValid boardState (Z.of_nat x) (Z.of_nat y)
                                     GoColor.black = GoValidity.valid) in
                    validityArray ++ [isValid])
                 [] column)
        (board boardState)).

(** [oldBoardState.previousPlayer !== null && oldBoardState.previousBoards.length] *)
Definition gameUnderWay (s : BoardState) : bool :=
  bool_decide (previousPlayer s <> None) && negb (length (previousBoards s) =? 0)%nat.

Definition resetBoardState (logger error : Message -> M unit)
    (opponent : GoOpponent.t) (boardSize : Z) : M (option (list string)) :=
  if negb (bool_decide (boardSize ∈ [5; 7; 9; 13]))
     && negb (bool_decide (opponent = GoOpponent.w0r1d_d43m0n))
  then error (InvalidSubnetSize boardSize);; mret None
  else
    redPill ← gets (fun w => hasTheRedPill (player w));
    if bool_decide (opponent = GoOpponent.w0r1d_d43m0n) && negb redPill
    then error (InvalidOpponent opponent);; mret None
    else
      oldBoardState ← gets currentGame;
      when (gameUnderWay oldBoardState)
           (modify (updStats (resetWinstreak (ai oldBoardState) false)));;
      modify (replaceGame (getNewBoardState boardSize opponent true));;
      GoEvents_emit;;
      logger (NewGameStarted opponent boardSize);;
      b ← gets (fun w => board (currentGame w));
      mret (Some (simpleBoardFromBoard b)).

Definition checkCheatApiAccess (error : Message -> M unit) : M unit :=
  p ← gets player;
  let hasSourceFile := 1 <? sourceFileLvl p 14 in
  let isBitnodeFourteenTwo := (sourceFileLvl p 14 =? 1) && (bitNodeN p =? 14) in
  when (negb hasSourceFile && negb isBitnodeFourteenTwo) (error CheatApiLocked).

(** [cheatSuccessChance(cheatCount)] reads [Player]; the record is an
    argument here. *)
Definition cheatSuccessChance (p : PlayerData) (cheatCount : nat) : Q :=
  let sourceFileBonus : Q := if sourceFileLvl p 14 =? 3 then 0.25%Q else 0%Q in
  let cheatCountScalar : Q :=
    ((0.7 - 0.02 * inject_Z (Z.of_nat cheatCount)) ^ Z.of_nat cheatCount)%Q in
  Qmax (Qmin (0.6 * cheatCountScalar * crime_success p + sourceFileBonus) 1) 0.

(** [override ?? rng.random()], for a generator that has been drawn from
    [drawn] times. *)
Definition roll (override : option Q) (seed : Z) (drawn : nat) : Q :=
  default (WHRNG_random seed drawn) override.

Definition determineCheatSuccess (logger : Message -> M unit) (callback : M unit)
    (successRngOverride ejectRngOverride : option Q) : M Turn :=
  state ← gets gameId;
  seed ← gets (fun w => totalPlaytime (player w));
  modify (updGame (setPassCount 0));;
  attempts ← gets (fun w => cheatCount (currentGame w));
  p ← gets player;
  if Qle_bool (roll successRngOverride seed 0) (cheatSuccessChance p attempts) then
    callback;;
    GoEvents_emit;;
    modify (updObject state (fun s => setCheatCount (S (cheatCount s)) s));;
    makeAIMove state
  else
    let drawn := match successRngOverride with Some _ => 0%nat | None => 1%nat end in
    if negb (attempts =? 0)%nat && Qlt_bool (roll ejectRngOverride seed drawn) 0.1%Q then
      logger CheatEjected;;
      endGoGame;;
      gets nextTurn
    else
      logger CheatSkipped;;
      passTurn GoColor.black false;;
      modify (updObject state (fun s => setCheatCount (S (cheatCount s)) s));;
      makeAIMove state.

Definition cheatRemoveRouter (logger : Message -> M unit) (x y : Z)
    (successRngOverride ejectRngOverride : option Q) : M Turn :=
  b ← gets (fun w => board (currentGame w));
  point ← boardAt b x y;
  determineCheatSuccess logger
    (pointSetColor point x y GoColor.empty;;
     modify (updGame (fun s => setBoard (updateChains (board s)) s));;
     modify (updGame (setPreviousPlayer (Some GoColor.black)));;
     logger (PointCleared x y))
    successRngOverride ejectRngOverride.

Definition cheatPlayTwoMoves (logger : Message -> M unit) (x1 y1 x2 y2 : Z)
    (successRngOverride ejectRngOverride : option Q) : M Turn :=
  b ← gets (fun w => board (currentGame w));
  point1 ← boardAt b x1 y1;
  point2 ← boardAt b x2 y2;
  determineCheatSuccess logger
    (pointSetColor point1 x1 y1 GoColor.black;;
     pointSetColor point2 x2 y2 GoColor.black;;
     modify (updGame (fun s => setBoard (updateCaptures (board s) GoColor.black) s));;
     modify (updGame (setPreviousPlayer (Some GoColor.black)));;
     logger (TwoMovesPlayed x1 y1 x2 y2))
    successRngOverride ejectRngOverride.

Definition cheatRepairOfflineNode (logger : Message -> M unit) (x y : Z)
    (successRngOverride ejectRngOverride : option Q) : M Turn :=
  determineCheatSuccess logger
    (boardAssign x y (Some (PointState.mk GoColor.empty EmptyString None x y));;
     modify (updGame (fun s => setBoard (updateChains (board s)) s));;
     modify (updGame (setPreviousPlayer (Some GoColor.black)));;
     logger (PointRepaired x y))
    successRngOverride ejectRngOverride.

Definition cheatDestroyNode (logger : Message -> M unit) (x y : Z)
    (successRngOverride ejectRngOverride : option Q) : M Turn :=
  determineCheatSuccess logger
    (boardAssign x y None;;
     modify (updGame (fun s => setBoard (updateChains (board s)) s));;
     modify (updGame (setPreviousPlayer (Some GoColor.black)));;
     logger (PointDestroyed x y))
    successRngOverride ejectRngOverride.

(** ** [GoGameboardWrapper] *)

(** [rerender()] *)
Definition rerender : M unit :=
  modify (updUi (fun u => mkUi (scoreOpen u) (searchOpen u) (S (renders u)))).

(** [resetState(newBoardSize = boardSize, newOpponent = Go.currentGame.ai)].
    [boardSize] is the constant of the enclosing render; the component is
    rendered again after every change of the game, so its [boardState] is the
    current game object. *)
Definition resetState (boardSize : Z) (newBoardSize : option Z)
    (newOpponent : option GoOpponent.t) : M unit :=
  boardState ← gets currentGame;
  let size := default boardSize newBoardSize in
  let opponent := default (ai boardState) newOpponent in
  modify (updUi (fun u => mkUi false (searchOpen u) (renders u)));;
  modify (updUi (fun u => mkUi (scoreOpen u) false (renders u)));;
  when (gameUnderWay boardState)
       (modify (updStats (resetWinstreak (ai boardState) false)));;
  modify (replaceGame (getNewBoardState size opponent true));;
  rerender;;
  modify (fun w => setNextTurn (resolveCurrentTurn (nextTurn w)) w).

End Implementation.

(** ** The API table of [Go.ts] *)

Module NetscriptGo.
Section Api.
Context {engine : Engine}.

Definition makeMove (x y : Z) : M Turn :=
  validateMove error x y "makeMove" noSettings;;
  makePlayerMove logger error x y.

Definition resetBoardState (opponent : GoOpponent.t) (boardSize : Z) : M (option (list string)) :=
  resetBoardState logger error opponent boardSize.

Definition removeRouter (x y : Z) : M Turn :=
  checkCheatApiAccess error;;
  validateMove error x y "removeRouter"
    (mkSettings (Some false) (Some true) (Some false) None None (Some false));;
  cheatRemoveRouter logger x y None None.

Definition playTwoMoves (x1 y1 x2 y2 : Z) : M Turn :=
  checkCheatApiAccess error;;
  validateMove error x1 y1 "playTwoMoves"
    (mkSettings None None (Some false) None None (Some false));;
  validateMove error x2 y2 "playTwoMoves"
    (mkSettings None None (Some false) None None (Some false));;
  cheatPlayTwoMoves logger x1 y1 x2 y2 None None.

Definition repairOfflineNode (x y : Z) : M Turn :=
  checkCheatApiAccess error;;
  validateMove error x y "repairOfflineNode"
    (mkSettings (Some false) None (Some false) (Some false) (Some true) (Some false));;
  cheatRepairOfflineNode logger x y None None.

Definition destroyNode (x y : Z) : M Turn :=
  checkCheatApiAccess error;;
  validateMove error x y "destroyNode"
    (mkSettings None None (Some false) (Some true) None (Some false));;
  cheatDestroyNode logger x y None None.

End Api.
End NetscriptGo.

(** ** A small instance of the collaborators

    The API layer is run on concrete worlds with this instance: the validator
    makes the first two checks of section 4.3 of the specification (bounds,
    empty point), the analyzers leave the board as it is, and a new game is
    an empty square board on which black moves first. *)

Module Sample.

Definition emptyPoint (x y : nat) : option PointState.t :=
  Some (PointState.mk GoColor.empty EmptyString None (Z.of_nat x) (Z.of_nat y)).

Definition emptyBoard (size : nat) : Board :=
  imap (fun x column => imap (fun y _ => emptyPoint x y) column)
       (replicate size (replicate size tt)).

Definition evaluate (s : BoardState) (x y : Z) (player : GoColor.t) : GoValidity.t :=
  match at_ (board s) x with
  | None => GoValidity.outOfBounds
  | Some column =>
      match at_ column y with
      | None => GoValidity.outOfBounds
      | Some None => GoValidity.pointNotEmpty
      | Some (Some p) =>
          if decide (PointState.color p = GoColor.empty)
          then GoValidity.valid else GoValidity.pointNotEmpty
      end
  end.

Definition cell (p : option PointState.t) : string :=
  match p with
  | None => "#"
  | Some q =>
      match PointState.color q with
      | GoColor.black => "X"
      | GoColor.white => "O"
      | GoColor.empty => "."
      end
  end.

Definition columnString (column : list (option PointState.t)) : string :=
  foldr (fun p acc => cell p +:+ acc) EmptyString column.

Definition newGame (boardSize : Z) (opponent : GoOpponent.t) (applyObstacles : bool) : BoardState :=
  mkBoardState (emptyBoard (Z.to_nat boardSize)) (Some GoColor.white) [] opponent 0 0.

Definition zeroStats : OpponentStats := mkStats 0 0 0 0 0 0.

Definition clearStreak (opponent : GoOpponent.t) (gameComplete : bool) (st : Stats) : Stats :=
  fun o =>
    if decide (o = opponent)
    then mkStats (wins (st o)) (losses (st o)) 0 (highestWinStreak (st o)) (favor (st o))
                 (nodePower (st o))
    else st o.

Definition countLoss (s : BoardState) (st : Stats) : Stats :=
  fun o =>
    if decide (o = ai s)
    then mkStats (wins (st o)) (losses (st o) + 1) 0 (highestWinStreak (st o)) (favor (st o))
                 (nodePower (st o))
    else st o.

(** A generator whose values cycle through the tenths 0, 0.1, ..., 0.9. *)
Definition tenths (seed : Z) (drawn : nat) : Q :=
  ((seed + Z.of_nat drawn) mod 10) # 10.

#[global] Instance engine : Engine := {|
  evaluateIfMoveIsValid := evaluate;
  updateChains := fun b => b;
  updateCaptures := fun b _ => b;
  getNewBoardState := newGame;
  boardString := fun b => foldr (fun column acc => columnString column +:+ acc) EmptyString b;
  simpleBoardFromBoard := fun b => columnString <$> b;
  resetWinstreak := clearStreak;
  recordGameEnd := countLoss;
  resolveCurrentTurn := fun t => t;
  WHRNG_random := tenths
|}.

(** A player with the cheat API (Source-File 14 at level 2) and no bonus to
    crime success. *)
Definition you : PlayerData :=
  mkPlayer (fun n => if n =? 14 then 2 else 0) 1 1%Q false 0.

(** A fresh 5x5 game against Netburners; it is black's turn. *)
Definition start : World :=
  mkWorld (newGame 5 (GoOpponent.faction "Netburners") true) 0
          (Resolved (mkPlay GoPlayType.gameOver None None))
          (fun _ => zeroStats) you 0 [] (mkUi false false 0).

(** The same game after one cheat attempt, with a black router on (2, 2). *)
Definition midgame : World :=
  updGame (fun s => setCheatCount 1
             (setBoard (placeStone (board s) 2 2 GoColor.black) s)) start.

End Sample.

(** ** Vocabulary of the statements *)

(** The error names the validity [v]: its message interpolates [v]. *)
Definition mentions (v : GoValidity.t) (e : Thrown) : Prop :=
  match e with
  | ScriptError (TurnRejected _ v')
  | ScriptError (WouldBeCaptured _ v')
  | ScriptError (WouldRepeat _ v')
  | ScriptError (InvalidMove _ _ v') => v' = v
  | _ => False
  end.

(** The size of the current board, as [validateMove] reads it. *)
Definition boardSizeOf (w : World) : Z := Z.of_nat (length (board (currentGame w))).

Definition inBounds (w : World) (x y : Z) : Prop :=
  (0 <= x < boardSizeOf w) /\ (0 <= y < boardSizeOf w).

(** The coordinate error for a point outside the board: the column is
    checked first. *)
Definition coordinateError (w : World) (x y : Z) : Message :=
  if decide (0 <= x < boardSizeOf w)
  then InvalidRow y (boardSizeOf w - 1)
  else InvalidColumn x (boardSizeOf w - 1).

(** The two configurations [resetBoardState] refuses. *)
Definition unsupportedSize (opponent : GoOpponent.t) (boardSize : Z) : Prop :=
  (boardSize ∉ [5; 7; 9; 13]) /\ opponent <> GoOpponent.w0r1d_d43m0n.

Definition undiscoveredOpponent (p : PlayerData) (opponent : GoOpponent.t) : Prop :=
  opponent = GoOpponent.w0r1d_d43m0n /\ hasTheRedPill p = false.

(** [checkCheatApiAccess] lets the call through. *)
Definition cheatApiOpen (p : PlayerData) : Prop :=
  1 < sourceFileLvl p 14 \/ (sourceFileLvl p 14 = 1 /\ bitNodeN p = 14).

(** The game is over: there is no previous player. *)
Definition isOver (s : BoardState) : Prop := previousPlayer s = None.

Section CheatVocabulary.
Context {engine : Engine}.

(** The chance [determineCheatSuccess] compares the success roll with. *)
Definition chanceNow (w : World) : Q :=
  cheatSuccessChance (player w) (cheatCount (currentGame w)).

(** [successRngOverride ?? rng.random()], the first use of the generator. *)
Definition successRoll (successRngOverride : option Q) (w : World) : Q :=
  roll successRngOverride (totalPlaytime (player w)) 0.

(** [ejectRngOverride ?? rng.random()]: the generator has been drawn from
    once unless the success roll was overridden. *)
Definition ejectRoll (successRngOverride ejectRngOverride : option Q) (w : World) : Q :=
  roll ejectRngOverride (totalPlaytime (player w))
       (match successRngOverride with Some _ => 0%nat | None => 1%nat end).

(** [state.cheatCount++] *)
Definition countAttempt (s : BoardState) : BoardState :=
  setCheatCount (S (cheatCount s)) s.

(** The world a cheat attempt starts from: the pass counter is 0. *)
Definition passesCleared (w : World) : World := updGame (setPassCount 0) w.

(** The world after a failed cheat that ejects the player: the line is
    logged and [endGoGame] has run. *)
Definition afterEjection (w : World) : World :=
  snd (endGoGame (appendLog CheatEjected (passesCleared w))).

(** The world after a failed cheat that skips the turn: the line is logged,
    black has passed with the game-ending effect switched off, the attempt
    is counted and the opponent's turn is pending. *)
Definition afterSkip (w : World) : World :=
  setNextTurn (Thinking (gameId w))
    (updGame countAttempt
      (snd (passTurn GoColor.black false (appendLog CheatSkipped (passesCleared w))))).

(** The run of a successful cheat: the callback, the change notification,
    the count of the attempt on the object the cheat started on, the request
    of the opponent's turn. *)
Definition successRun (callback : M unit) (state : nat) : M Turn :=
  callback;;
  GoEvents_emit;;
  modify (updObject state countAttempt);;
  makeAIMove state.

End CheatVocabulary.

(** Unfolding of the monadic plumbing. *)
Ltac run :=
  unfold mbind, M_bind, mret, M_ret, gets, modify, when, error, logger, throw,
         GoEvents_emit in *;
  simpl in *.

(** * The rest of the layer *)

(** ** More of [netscriptGoImplementation] *)

(** [chains.indexOf(c)]: the first position of [c], or -1. *)
Fixpoint indexOfFrom (c : string) (i : Z) (l : list string) : Z :=
  match l with
  | [] => -1
  | d :: rest => if decide (d = c) then i else indexOfFrom c (i + 1) rest
  end.

Definition indexOf (c : string) (l : list string) : Z := indexOfFrom c 0 l.

(** [chains.includes(c)] *)
Definition includes (c : string) (l : list string) : bool := bool_decide (c ∈ l).

(** The reducer of [getChains].  The array [chains] lives outside the
    reducer and is written by it, so it travels with the accumulator. *)
Definition chainStep (acc : list string * list (option Z))
    (point : option PointState.t) (y : nat) : list string * list (option Z) :=
  match point with
  | None => (fst acc, snd acc ++ [None])
  | Some p =>
      let chains :=
        if includes (PointState.chain p) (fst acc) then fst acc
        else fst acc ++ [PointState.chain p] in
      (chains, snd acc ++ [Some (indexOf (PointState.chain p) chains)])
  end.

(** One column of [board.map(column => column.reduce(..., []))] with the
    shared [chains]: the column starts from the names collected so far and
    its row is added to the grid. *)
Definition chainColumn (st : list string * list (list (option Z)))
    (column : list (option PointState.t)) : list string * list (list (option Z)) :=
  let r := reduce chainStep (fst st, []) column in
  (fst r, snd st ++ [snd r]).

(** The columns are visited in order. *)
Definition chainsOfBoard (chains : list string) (b : Board)
    : list string * list (list (option Z)) :=
  fold_left chainColumn b (chains, []).

Definition getChains : M (list (list (option Z))) :=
  b ← gets (fun w => board (currentGame w));
  mret (snd (chainsOfBoard [] b)).

(** [point?.liberties?.length || -1] *)
Definition libertyCount (point : option PointState.t) : Z :=
  match point with
  | Some p =>
      match PointState.liberties p with
      | Some l => if (length l =? 0)%nat then -1 else Z.of_nat (length l)
      | None => -1
      end
  | None => -1
  end.

Definition getLiberties : M (list (list Z)) :=
  b ← gets (fun w => board (currentGame w));
  mret ((fun column =>
           reduce (fun libertyArray (point : option PointState.t) (_ : nat) =>
                     libertyArray ++ [libertyCount point])
                  [] column) <$> b).

(** [getCurrentPlayer()]: ["None"] is [None], a colour is its name. *)
Definition getCurrentPlayer : M (option GoColor.t) :=
  previous ← gets (fun w => previousPlayer (currentGame w));
  match previous with
  | None => mret None
  | Some p =>
      mret (Some (if decide (p = GoColor.black) then GoColor.white else GoColor.black))
  end.

(** ** More of the API table of [Go.ts] *)

Module GoApi.
Section Api.
Context {engine : Engine}.

(** [cheat.getCheatSuccessChance(_cheatCount = Go.currentGame.cheatCount)] *)
Definition getCheatSuccessChance (_cheatCount : option nat) : M Q :=
  current ← gets (fun w => cheatCount (currentGame w));
  checkCheatApiAccess error;;
  p ← gets player;
  mret (cheatSuccessChance p (default current _cheatCount)).

(** [cheat.getCheatCount()] *)
Definition getCheatCount : M nat :=
  checkCheatApiAccess error;;
  gets (fun w => cheatCount (currentGame w)).

(** [getOpponent()] *)
Definition getOpponent : M GoOpponent.t := gets (fun w => ai (currentGame w)).

End Api.
End GoApi.

(** ** What the script and the board wrapper write besides *)

(** The lines [handlePassTurn], [logEndGame] and [getOpponentNextMove] hand
    to [logger]. *)
Inductive Notice :=
| TurnPassed
| SubnetComplete (opponent : GoOpponent.t) (whiteSum blackSum : Q)
| OpponentPassed
| OpponentPlayed (x y : option Z).

(** [ToastVariant], the members the wrapper uses. *)
Inductive ToastVariant := WARNING | ERROR.

(** The texts the wrapper hands to [SnackbarEvents.emit]. *)
Inductive ToastText :=
| ShowingPastBoard
| NotYourTurnToast
| GameCompleteToast
| InvalidMoveToast (v : GoValidity.t)
| OpponentPassesToast.

Record Toast := mkToast {
  toastText : ToastText;
  toastVariant : ToastVariant;
  toastDuration : Z
}.

(** The world together with the state hook [showPriorMove] of the wrapper
    and the two further sinks. *)
Record Session := mkSession {
  world : World;
  showPriorMove : bool;
  toasts : list Toast;       (* SnackbarEvents.emit, in order *)
  notices : list Notice      (* logger, for the lines of [Notice] *)
}.

Definition updWorld (f : World -> World) (s : Session) : Session :=
  mkSession (f (world s)) (showPriorMove s) (toasts s) (notices s).
Definition setShowPriorMove (b : bool) (s : Session) : Session :=
  mkSession (world s) b (toasts s) (notices s).
Definition pushToast (t : Toast) (s : Session) : Session :=
  mkSession (world s) (showPriorMove s) (toasts s ++ [t]) (notices s).
Definition pushNotice (n : Notice) (s : Session) : Session :=
  mkSession (world s) (showPriorMove s) (toasts s) (notices s ++ [n]).

Definition Act (A : Type) : Type := Session -> Outcome A * Session.

#[global] Instance Act_ret : MRet Act := fun A a s => (Returned a, s).
#[global] Instance Act_bind : MBind Act := fun A B f m s =>
  match m s with
  | (Returned a, s') => f a s'
  | (Threw e, s') => (Threw e, s')
  end.

(** A computation on the world, run inside a session. *)
Definition inWorld {A : Type} (m : M A) : Act A :=
  fun s =>
    match m (world s) with
    | (o, w') => (o, mkSession w' (showPriorMove s) (toasts s) (notices s))
    end.

Definition ask {A : Type} (f : Session -> A) : Act A := fun s => (Returned (f s), s).
Definition change (f : Session -> Session) : Act unit := fun s => (Returned tt, f s).
(** [if (b) c;] *)
Definition whenever (b : bool) (c : Act unit) : Act unit := if b then c else mret tt.

(** [logger(ctx)] for the lines of [Notice], and [SnackbarEvents.emit]. *)
Definition note (n : Notice) : Act unit := change (pushNotice n).
Definition SnackbarEvents_emit (t : ToastText) (v : ToastVariant) (duration : Z) : Act unit :=
  change (pushToast (mkToast t v duration)).

(** [getScore(boardState)[color].sum], of [../boardAnalysis/scoring], which
    is not part of the sources. *)
Class Scoring := {
  scoreSum : BoardState -> GoColor.t -> Q
}.

(** What [getOpponentNextMove] returns: the promise [Go.nextTurn], with or
    without the callback that logs the move once it resolves. *)
Inductive Awaited :=
| Announced (t : Turn)
| Plain (t : Turn).

(** What [setTimeout] was asked for. *)
Inductive Timer :=
| TakeAiTurnIn (milliseconds : Z) (boardState : nat).

Section Passing.
Context {engine : Engine} {scoring : Scoring}.

Definition logEndGame (logger : Notice -> Act unit) : Act unit :=
  boardState ← ask (fun s => currentGame (world s));
  logger (SubnetComplete (ai boardState)
            (scoreSum boardState GoColor.white) (scoreSum boardState GoColor.black)).

(** The callback [getOpponentNextMove] chains to [Go.nextTurn]. *)
Definition announceMove (logger : Notice -> Act unit) (move : Play) : Act Play :=
  match playType move with
  | GoPlayType.gameOver => logEndGame logger
  | GoPlayType.pass => logger OpponentPassed
  | GoPlayType.move => logger (OpponentPlayed (playX move) (playY move))
  end;;
  mret move.

Definition getOpponentNextMove (logOpponentMove : bool) (logger : Notice -> Act unit)
    : Act Awaited :=
  t ← ask (fun s => nextTurn (world s));
  if logOpponentMove then mret (Announced t) else mret (Plain t).

Definition handlePassTurn (logger : Notice -> Act unit) : Act Awaited :=
  inWorld (passTurn GoColor.black true);;
  logger TurnPassed;;
  previous ← ask (fun s => previousPlayer (currentGame (world s)));
  if bool_decide (previous = None) then
    logEndGame logger;;
    getOpponentNextMove false logger
  else
    boardState ← ask (fun s => gameId (world s));
    t ← inWorld (makeAIMove boardState);
    mret (Plain t).

(** [passTurn] of the API table. *)
Definition apiPassTurn : Act Awaited :=
  inWorld (validateTurn error (mkMoveString "passTurn()" None));;
  handlePassTurn note.

(** [opponentNextTurn(_logOpponentMove)]: anything but a boolean counts as
    [true]. *)
Definition opponentNextTurn (logOpponentMove : option bool) : Act Awaited :=
  getOpponentNextMove (default true logOpponentMove) note.

(** ** More of [GoGameboardWrapper] *)

(** The constants of one render, as functions of the game it shows. *)
Definition currentPlayer (s : BoardState) : GoColor.t :=
  if bool_decide (previousPlayer s = Some GoColor.white) then GoColor.black else GoColor.white.

Definition waitingOnAI (s : BoardState) : bool :=
  bool_decide (previousPlayer s = Some GoColor.black)
  && negb (bool_decide (ai s = GoOpponent.none)).

(** [boardState.ai === GoOpponent.none && boardState.previousPlayer], as a
    truth value: a colour is truthy, [null] is not. *)
Definition ongoingNoAiGame (s : BoardState) : bool :=
  bool_decide (ai s = GoOpponent.none) && bool_decide (is_Some (previousPlayer s)).

Definition manualTurnAvailable (s : BoardState) : bool :=
  ongoingNoAiGame s || bool_decide (previousPlayer s = Some GoColor.white).

(** [manualTurnAvailable && boardState.passCount], as a truth value. *)
Definition endGameAvailable (s : BoardState) : bool :=
  manualTurnAvailable s && negb (passCount s =? 0)%nat.

(** The label of the pass button; [playerString] is the colour shown in
    brackets when white is played by hand. *)
Inductive ButtonLabel :=
| EndGameLabel (playerString : option GoColor.t)
| ViewFinalScore
| WaitingForOpponent
| PassTurnLabel (playerString : option GoColor.t).

Definition getPassButtonLabel (s : BoardState) : ButtonLabel :=
  let playerString :=
    if bool_decide (ai s = GoOpponent.none) then Some (currentPlayer s) else None in
  if endGameAvailable s then EndGameLabel playerString
  else if bool_decide (previousPlayer s = None) then ViewFinalScore
  else if waitingOnAI s then WaitingForOpponent
  else PassTurnLabel playerString.

Definition setScoreOpen (b : bool) : M unit :=
  modify (updUi (fun u => mkUi b (searchOpen u) (renders u))).
Definition setSearchOpen (b : bool) : M unit :=
  modify (updUi (fun u => mkUi (scoreOpen u) b (renders u))).

(** [takeAiTurn(boardState)] up to its [await]: without an opponent the
    scripts waiting for the turn are released; otherwise the opponent's move
    is requested and the function waits for it. *)
Definition takeAiTurn (boardState : nat) : M (option Turn) :=
  opponent ← gets (fun w => ai (currentGame w));
  if bool_decide (opponent = GoOpponent.none) then
    previous ← gets (fun w => previousPlayer (currentGame w));
    when (bool_decide (is_Some previous))
         (modify (fun w => setNextTurn (resolveCurrentTurn (nextTurn w)) w));;
    mret None
  else
    t ← makeAIMove boardState;
    mret (Some t).

(** [takeAiTurn] after its [await], with the opponent's play. *)
Definition takeAiTurnResumed (move : Play) : Act unit :=
  if bool_decide (playType move = GoPlayType.pass) then
    SnackbarEvents_emit OpponentPassesToast WARNING 4000;;
    inWorld rerender
  else
    whenever (bool_decide (playType move = GoPlayType.gameOver)
              || bool_decide (playX move = None) || bool_decide (playY move = None))
             (inWorld (setScoreOpen true)).

(** [clickHandler(x, y)]; the wrapper is rendered again after every change
    of the game, so its [boardState] is the current game object. *)
Definition clickHandler (x y : Z) : Act unit :=
  showing ← ask showPriorMove;
  if bool_decide (showing = true) then SnackbarEvents_emit ShowingPastBoard WARNING 2000
  else
    boardState ← ask (fun s => currentGame (world s));
    let gameOver := bool_decide (previousPlayer boardState = None) in
    let notYourTurn :=
      bool_decide (previousPlayer boardState = Some GoColor.black)
      && negb (bool_decide (ai boardState = GoOpponent.none)) in
    if notYourTurn then SnackbarEvents_emit NotYourTurnToast WARNING 2000
    else if gameOver then SnackbarEvents_emit GameCompleteToast WARNING 2000
    else
      let validity := evaluateIfMoveIsValid boardState x y (currentPlayer boardState) in
      if negb (bool_decide (validity = GoValidity.valid))
      then SnackbarEvents_emit (InvalidMoveToast validity) ERROR 2000
      else
        state ← ask (fun s => gameId (world s));
        didUpdateBoard ← inWorld (makeMove x y (currentPlayer boardState));
        whenever didUpdateBoard
                 (inWorld rerender;;
                  inWorld (takeAiTurn state);;
                  mret tt).

(** [passPlayerTurn()]: the three tests read the game as the passes before
    them left it; the result is the timer that was set, if any. *)
Definition passPlayerTurn : M (option Timer) :=
  boardState ← gets gameId;
  previous ← gets (fun w => previousPlayer (currentGame w));
  when (bool_decide (previous = Some GoColor.white))
       (passTurn GoColor.black true;; rerender);;
  game ← gets currentGame;
  when (bool_decide (previousPlayer game = Some GoColor.black)
        && bool_decide (ai game = GoOpponent.none))
       (passTurn GoColor.white true;; rerender);;
  previous ← gets (fun w => previousPlayer (currentGame w));
  if bool_decide (previous = None) then
    setScoreOpen true;;
    mret None
  else mret (Some (TakeAiTurnIn 100 boardState)).

Definition newSubnet : M unit :=
  setScoreOpen false;;
  setSearchOpen true.

Definition showPreviousMove (newValue : bool) : Act unit :=
  history ← ask (fun s => previousBoards (currentGame (world s)));
  whenever (negb (length history =? 0)%nat) (change (setShowPriorMove newValue)).

End Passing.

(** ** [AlertManager] *)

Module AlertManager.

(** What is shown: a string, or a React element, of which only the props
    matter here. *)
Inductive Text :=
| Str (s : string)
| Element (props : string).

Record Alert := mkAlert {
  text : Text;
  hash : string
}.

(** [cyrb53] of [../../utils/HashUtils] and [JSON.stringify], which may
    throw, are not part of the sources. *)
Class Hashing := {
  cyrb53 : string -> string;
  stringify : string -> option string
}.

Section Alerts.
Context {hashing : Hashing}.

(** [now] is [Date.now().toString()] at the time of the call. *)
Definition getMessageHash (now : string) (t : Text) : string :=
  match t with
  | Str s => cyrb53 s
  | Element props =>
      let textPropsAsString :=
        match stringify props with
        | Some json => json
        | None => now
        end in
      cyrb53 textPropsAsString
  end.

(** The hash of [t] does not read the clock: [t] is a string, or an element
    whose props [JSON.stringify] converts without throwing. *)
Definition clockFree (t : Text) : Prop :=
  match t with
  | Str _ => True
  | Element props => is_Some (stringify props)
  end.

(** The subscriber of [AlertEvents]: the updater given to [setAlerts]. *)
Definition receive (now : string) (t : Text) (old : list Alert) : list Alert :=
  let h := getMessageHash now t in
  if existsb (fun a => bool_decide (hash a = h)) old then old
  else old ++ [mkAlert t h].

(** [close()]: [old.slice(1)]. *)
Definition close (old : list Alert) : list Alert := drop 1 old.

(** The key handler: [Escape] empties the queue. *)
Definition handle (code : string) (old : list Alert) : list Alert :=
  if bool_decide (code = "Escape") then [] else old.

(** [alerts[0]?.text || "No alert to show"]: the empty string is falsy. *)
Definition alertMessage (alerts : list Alert) : Text :=
  match alerts with
  | [] => Str "No alert to show"
  | a :: _ =>
      match text a with
      | Str EmptyString => Str "No alert to show"
      | t => t
      end
  end.

(** [open={!hidden && alerts.length > 0}] *)
Definition modalOpen (hidden : bool) (alerts : list Alert) : bool :=
  negb hidden && (0 <? length alerts)%nat.

(** The hashes of a queue are pairwise different. *)
Definition distinctHashes (alerts : list Alert) : Prop := NoDup (hash <$> alerts).

End Alerts.
End AlertManager.

(** ** Vocabulary of the further statements *)

(** The point a pair of coordinates denotes on a board, if any. *)
Definition pointAt (b : Board) (x y : Z) : option PointState.t :=
  column ← at_ b x; mjoin (at_ column y).

(** It is black's turn as [validateTurn] sees it: there is a previous
    player and it is not black. *)
Definition blackMayMove (s : BoardState) : Prop :=
  previousPlayer s <> Some GoColor.black /\ previousPlayer s <> None.

(** What [validateMove] asks of a point, for the switches [check] and the
    answer [validity] of the validator. *)
Definition moveAccepted (check : Check) (validity : GoValidity.t) (w : World) (x y : Z) : Prop :=
  let point := pointAt (board (currentGame w)) x y in
  inBounds w x y
  /\ blackMayMove (currentGame w)
  /\ (onlineNode check = true -> is_Some point)
  /\ (suicide check = true -> validity <> GoValidity.noSuicide)
  /\ (repeatCheck check = true -> validity <> GoValidity.boardRepeated)
  /\ (emptyNode check = true -> colorIsEmpty point = true)
  /\ (requireNonEmptyNode check = true -> colorIsEmpty point = false)
  /\ (requireOfflineNode check = true -> point = None).

(** The turn has been handed over: black moved last, or the game is over. *)
Definition turnHandedOver (s : BoardState) : Prop :=
  previousPlayer s = Some GoColor.black \/ previousPlayer s = None.

(** An entry point ended cleanly: it threw a script error and left the
    world as it was, or it returned with the turn handed over. *)
Definition endedCleanly {A : Type} (w : World) (r : Outcome A * World) : Prop :=
  (exists m, r = (Threw (ScriptError m), w))
  \/ (exists a w', r = (Returned a, w') /\ turnHandedOver (currentGame w')).

(** The entry of a grid at (x, y), if there is one. *)
Definition entryAt {A : Type} (grid : list (list A)) (x y : nat) : option A :=
  row ← grid !! x; row !! y.

(** The number [getChains] shows for a point, given the chain names in the
    order of their numbers: nothing for an offline node, the position of its
    chain name otherwise. *)
Definition numbered (names : list string) (point : option PointState.t)
    (entry : option Z) : Prop :=
  match point with
  | None => entry = None
  | Some p => exists k : nat, entry = Some (Z.of_nat k) /\ names !! k = Some (PointState.chain p)
  end.

(** The entry points of the API table that place or remove a router. *)
Definition placingEntryPoints {engine : Engine} (x y x2 y2 : Z) : list (M Turn) :=
  [NetscriptGo.makeMove x y; NetscriptGo.removeRouter x y;
   NetscriptGo.playTwoMoves x y x2 y2; NetscriptGo.repairOfflineNode x y;
   NetscriptGo.destroyNode x y].

(** Unfolding of the plumbing of a session. *)
Ltac runAct :=
  unfold mbind, Act_bind, mret, Act_ret, ask, change, whenever, note,
         SnackbarEvents_emit, inWorld in *;
  simpl in *.

(** Hashing for the sample runs: the text itself. *)
Module SampleHash.
#[global] Instance hashing : AlertManager.Hashing :=
  {| AlertManager.cyrb53 := fun s => s; AlertManager.stringify := fun props => Some props |}.

(** Props with a circular structure: [JSON.stringify] throws on all of them. *)
Definition circular : AlertManager.Hashing :=
  {| AlertManager.cyrb53 := fun s => s; AlertManager.stringify := fun _ => None |}.
End SampleHash.

(** A scoring for the sample runs: the routers of a colour on the board. *)
Module SampleScore.

Definition routers (s : BoardState) (c : GoColor.t) : Q :=
  inject_Z (Z.of_nat (length (filter (fun p : option PointState.t =>
                                        PointState.color <$> p = Some c)
                                     (concat (board s))))).

#[global] Instance scoring : Scoring := {| scoreSum := routers |}.

Definition session (w : World) : Session := mkSession w false [] [].

(** A player without Source-File 14, on the sample game. *)
Definition newcomer : PlayerData :=
  mkPlayer (fun _ => 0) 1 1%Q false 0.

(** The sample game played by hand on both sides (no opponent). *)
Definition manual : World :=
  mkWorld (mkBoardState (board (currentGame Sample.start)) (Some GoColor.white) []
                        GoOpponent.none 0 0)
          0 (nextTurn Sample.start) (stats Sample.start) Sample.you 0 []
          (mkUi false false 0).

(** Two pending alerts. *)
Definition pending : list AlertManager.Alert :=
  [AlertManager.mkAlert (AlertManager.Str "saved") "saved";
   AlertManager.mkAlert (AlertManager.Element "props") "props"].

Definition locked : World :=
  mkWorld (currentGame Sample.midgame) 0 (nextTurn Sample.midgame) (stats Sample.midgame)
          newcomer 0 [] (mkUi false false 0).

End SampleScore.

(** * Properties *)

(** ** The success chance of a cheat *)

Lemma Qpower_S (a : Q) (n : nat) :
  (a ^ Z.of_nat (S n) == a * a ^ Z.of_nat n)%Q.
Proof.
  rewrite Nat2Z.inj_succ. unfold Z.succ.
  rewrite Z.add_comm, Qpower_plus' by lia.
  simpl. reflexivity.
Qed.

Lemma Qpower_nat_mono (a b : Q) (n : nat) :
  (0 <= a)%Q -> (a <= b)%Q -> (a ^ Z.of_nat n <= b ^ Z.of_nat n)%Q.
Proof.
  intros Ha Hab. induction n as [|n IH].
  - simpl. apply Qle_refl.
  - rewrite !Qpower_S.
    apply Qmult_le_compat_nonneg; split; try assumption.
    apply Qpower_0_le, Ha.
Qed.

(** The result of [cheatSuccessChance] is clamped into [0, 1], whatever the
    player and the attempt count. *)
Lemma cheatSuccessChance_range (p : PlayerData) (n : nat) :
  (0 <= cheatSuccessChance p n <= 1)%Q.
Proof.
  unfold cheatSuccessChance. split.
  - apply Q.le_max_r.
  - apply Q.max_lub.
    + apply Q.le_min_r.
    + discriminate.
Qed.

(** The base of the power, [0.7 - 0.02 * cheatCount]. *)
Lemma cheat_base_step (n : nat) :
  (0.7 - 0.02 * inject_Z (Z.of_nat (S n)) == (0.7 - 0.02 * inject_Z (Z.of_nat n)) - 0.02)%Q.
Proof.
  rewrite Nat2Z.inj_succ. unfold Z.succ. rewrite inject_Z_plus. ring.
Qed.

Lemma cheat_base_nonneg (n : nat) :
  (n <= 35)%nat -> (0 <= 0.7 - 0.02 * inject_Z (Z.of_nat n))%Q.
Proof.
  intros Hn. unfold Qle, Qminus, Qplus, Qmult, Qopp, inject_Z. simpl. lia.
Qed.

Lemma cheat_base_le_1 (n : nat) :
  (0.7 - 0.02 * inject_Z (Z.of_nat n) <= 1)%Q.
Proof.
  unfold Qle, Qminus, Qplus, Qmult, Qopp, inject_Z. simpl. lia.
Qed.

(** While the base stays non-negative, that is, up to 35 attempts, one more
    attempt never raises the chance of a player whose crime success
    multiplier is not negative. *)
Lemma cheatSuccessChance_decreases_to_35 (p : PlayerData) (n : nat) :
  (0 <= crime_success p)%Q -> (S n <= 35)%nat ->
  (cheatSuccessChance p (S n) <= cheatSuccessChance p n)%Q.
Proof.
  intros Hm Hn. unfold cheatSuccessChance.
  apply Q.max_le_compat_r, Q.min_le_compat_r, Qplus_le_l.
  apply Qmult_le_compat_r; [| exact Hm].
  set (b := (0.7 - 0.02 * inject_Z (Z.of_nat n))%Q).
  set (b' := (0.7 - 0.02 * inject_Z (Z.of_nat (S n)))%Q).
  assert (Hb' : (0 <= b')%Q) by (apply cheat_base_nonneg; exact Hn).
  assert (Hbb : (b' <= b)%Q).
  { unfold b', b. rewrite cheat_base_step.
    apply Qle_minus_iff. ring_simplify. discriminate. }
  assert (Hpow : (0 <= b' ^ Z.of_nat (S n) <= b ^ Z.of_nat n)%Q).
  { split; [apply Qpower_0_le, Hb' |].
    rewrite Qpower_S, <- (Qmult_1_l (b ^ Z.of_nat n)).
    apply Qmult_le_compat_nonneg; split.
    - exact Hb'.
    - apply cheat_base_le_1.
    - apply Qpower_0_le, Hb'.
    - apply Qpower_nat_mono; assumption. }
  apply Qmult_le_compat_nonneg; [split; discriminate | exact Hpow].
Qed.

(** C2. [cheatSuccessChance] is not monotone in the attempt count.  For the
    player [Sample.you] (crime success multiplier 1, no source-file bonus)
    the base [0.7 - 0.02 * n] is 0 at n = 35 and negative from n = 36 on, so
    an even power is positive again: the chance is 0 after 35 attempts and
    positive after 36, and it is 0 after 85 attempts and 1 after 86. *)
Theorem cheatSuccessChance_rises_again :
  (cheatSuccessChance Sample.you 35 < cheatSuccessChance Sample.you 36)%Q
  /\ (cheatSuccessChance Sample.you 85 == 0)%Q
  /\ (cheatSuccessChance Sample.you 86 == 1)%Q.
Proof.
  repeat split; vm_compute; reflexivity.
Qed.

Section ApiProperties.
Context {engine : Engine}.

(** ** Turn gate *)

(** C5. [validateTurn] throws an error naming [notYourTurn] exactly when the
    previous player is black, an error naming [gameOver] exactly when there
    is no previous player, and returns normally in every other case, in
    particular when the previous player is white; it never changes the
    world. *)
Theorem validateTurn_gates_black (moveString : MoveString) (w : World) :
  let r := validateTurn error moveString w in
  let previous := previousPlayer (currentGame w) in
  snd r = w
  /\ ((exists e, fst r = Threw e /\ mentions GoValidity.notYourTurn e)
      <-> previous = Some GoColor.black)
  /\ ((exists e, fst r = Threw e /\ mentions GoValidity.gameOver e)
      <-> previous = None)
  /\ (fst r = Returned tt <-> previous <> Some GoColor.black /\ previous <> None)
  /\ (previous = Some GoColor.white -> fst r = Returned tt).
Proof.
  unfold validateTurn. run.
  destruct (previousPlayer (currentGame w)) as [[| |]|]; simpl.
  all: repeat split; try reflexivity; try congruence.
  all: try (intros (e & He & Hm); inversion He; subst; simpl in Hm; congruence).
  all: try (intros; eexists; split; [reflexivity | reflexivity]).
  all: try (intros [H1 H2]; congruence).
Qed.

(** ** Coordinates outside the board *)

Lemma geb_false_lt (a b : Z) : (a >=? b) = false <-> a < b.
Proof. rewrite Z.geb_leb, Z.leb_gt. reflexivity. Qed.

(** The two bounds checks come first in [validateMove]: on a point outside
    the board the coordinate error is thrown (column first) and the world is
    left as it was. *)
Lemma validateMove_out_of_bounds
    (x y : Z) (methodName : string) (settings : Settings) (w : World) :
  ~ inBounds w x y ->
  validateMove error x y methodName settings w
  = (Threw (ScriptError (coordinateError w x y)), w).
Proof.
  unfold inBounds, coordinateError, boardSizeOf, validateMove. intros Hout. run.
  destruct (x <? 0) eqn:Hx0; simpl.
  - apply Z.ltb_lt in Hx0. rewrite decide_False by lia. reflexivity.
  - apply Z.ltb_ge in Hx0.
    destruct (x >=? Z.of_nat (length (board (currentGame w)))) eqn:Hx1; simpl.
    + rewrite Z.geb_leb in Hx1. apply Z.leb_le in Hx1.
      rewrite decide_False by lia. reflexivity.
    + apply geb_false_lt in Hx1. rewrite decide_True by lia.
      destruct (y <? 0) eqn:Hy0; simpl; [reflexivity |].
      apply Z.ltb_ge in Hy0.
      destruct (y >=? Z.of_nat (length (board (currentGame w)))) eqn:Hy1; simpl;
        [reflexivity |].
      apply geb_false_lt in Hy1. lia.
Qed.

Lemma checkCheatApiAccess_open (w : World) :
  cheatApiOpen (player w) -> checkCheatApiAccess error w = (Returned tt, w).
Proof.
  unfold cheatApiOpen, checkCheatApiAccess. intros Hopen. run.
  destruct (1 <? sourceFileLvl (player w) 14) eqn:H1; simpl; [reflexivity |].
  apply Z.ltb_ge in H1.
  destruct Hopen as [Hlt | [Hlvl Hbn]]; [lia |].
  rewrite Hlvl, Hbn. reflexivity.
Qed.

(** The entry points of the API table: a point outside the board makes each
    of them throw the coordinate error before anything is changed (the cheat
    entry points once the cheat API is open; [playTwoMoves] for its first
    point). *)
Lemma entry_points_reject_out_of_bounds (x y x2 y2 : Z) (w : World) :
  ~ inBounds w x y ->
  NetscriptGo.makeMove x y w = (Threw (ScriptError (coordinateError w x y)), w)
  /\ (cheatApiOpen (player w) ->
      NetscriptGo.removeRouter x y w = (Threw (ScriptError (coordinateError w x y)), w)
      /\ NetscriptGo.playTwoMoves x y x2 y2 w
         = (Threw (ScriptError (coordinateError w x y)), w)
      /\ NetscriptGo.repairOfflineNode x y w
         = (Threw (ScriptError (coordinateError w x y)), w)
      /\ NetscriptGo.destroyNode x y w
         = (Threw (ScriptError (coordinateError w x y)), w)).
Proof.
  intros Hout. split.
  - unfold NetscriptGo.makeMove, mbind, M_bind.
    rewrite validateMove_out_of_bounds by exact Hout. reflexivity.
  - intros Hopen.
    unfold NetscriptGo.removeRouter, NetscriptGo.playTwoMoves,
           NetscriptGo.repairOfflineNode, NetscriptGo.destroyNode, mbind, M_bind.
    rewrite checkCheatApiAccess_open by exact Hopen.
    rewrite !validateMove_out_of_bounds by exact Hout.
    repeat split.
Qed.

(** The second point of [playTwoMoves] is checked once the first point has
    passed. *)
Lemma playTwoMoves_rejects_second_point (x1 y1 x2 y2 : Z) (w : World) :
  cheatApiOpen (player w) ->
  validateMove error x1 y1 "playTwoMoves"
    (mkSettings None None (Some false) None None (Some false)) w = (Returned tt, w) ->
  ~ inBounds w x2 y2 ->
  NetscriptGo.playTwoMoves x1 y1 x2 y2 w
  = (Threw (ScriptError (coordinateError w x2 y2)), w).
Proof.
  intros Hopen Hfirst Hout.
  unfold NetscriptGo.playTwoMoves, mbind, M_bind.
  rewrite checkCheatApiAccess_open by exact Hopen.
  rewrite Hfirst.
  rewrite validateMove_out_of_bounds by exact Hout. reflexivity.
Qed.

(** C6. A point outside the board is refused first.  For every method name
    and every settings object, hence for the call made by each entry point,
    [validateMove] throws the coordinate error and leaves the world as it
    was; the statement holds for every world and every validator, so the
    turn, the occupancy of the point, suicide and repetition are not
    consulted.  The entry points that place or remove a stone, [makeMove] and
    (once the cheat API is open) the four cheat operations, end with that
    error and the world, its board included, is the one before the call. *)
Theorem validateMove_rejects_out_of_bounds
    (x y x2 y2 : Z) (methodName : string) (settings : Settings) (w : World) :
  ~ inBounds w x y ->
  let refusal := ScriptError (coordinateError w x y) in
  validateMove error x y methodName settings w = (Threw refusal, w)
  /\ (coordinateError w x y = InvalidColumn x (boardSizeOf w - 1)
      \/ coordinateError w x y = InvalidRow y (boardSizeOf w - 1))
  /\ NetscriptGo.makeMove x y w = (Threw refusal, w)
  /\ (cheatApiOpen (player w) ->
      NetscriptGo.removeRouter x y w = (Threw refusal, w)
      /\ NetscriptGo.playTwoMoves x y x2 y2 w = (Threw refusal, w)
      /\ NetscriptGo.repairOfflineNode x y w = (Threw refusal, w)
      /\ NetscriptGo.destroyNode x y w = (Threw refusal, w)).
Proof.
  intros Hout refusal. subst refusal.
  split; [apply validateMove_out_of_bounds; exact Hout |].
  split.
  - unfold coordinateError.
    destruct (decide (0 <= x < boardSizeOf w)); [right | left]; reflexivity.
  - apply entry_points_reject_out_of_bounds. exact Hout.
Qed.

End ApiProperties.

Section MoveProperties.
Context {engine : Engine}.

(** ** Placing a router *)

(** C4. [makePlayerMove] at (x, y): when the validator does not answer
    [valid], or [makeMove] returns false, the error thrown to the caller
    carries the coordinates and the validity, and the world is the one before
    the call; otherwise [makeMove] has applied the move, one change
    notification is emitted, the move is logged and the opponent's turn is
    requested for the game object that was played on. *)
Theorem makePlayerMove_reports_or_applies (x y : Z) (w : World) :
  let validity := evaluateIfMoveIsValid (currentGame w) x y GoColor.black in
  let moved := makeMove x y GoColor.black w in
  let r := makePlayerMove logger error x y w in
  ((validity <> GoValidity.valid \/ fst moved = Returned false) ->
   r = (Threw (ScriptError (InvalidMove x y validity)), w))
  /\ (~ (validity <> GoValidity.valid \/ fst moved = Returned false) ->
      fst moved = Returned true
      /\ board (currentGame (snd moved))
         = updateCaptures (placeStone (board (currentGame w)) x y GoColor.black) GoColor.black
      /\ previousPlayer (currentGame (snd moved)) = Some GoColor.black
      /\ r = (Returned (Thinking (gameId w)),
              setNextTurn (Thinking (gameId w))
                (appendLog (MovePlayed x y) (emitEvent (snd moved))))).
Proof.
  unfold makePlayerMove, makeMove, makeAIMove. run.
  destruct (decide (evaluateIfMoveIsValid (currentGame w) x y GoColor.black
                    = GoValidity.valid)) as [Hv | Hv]; simpl.
  - rewrite Hv. simpl. split.
    + intros [H | H]; [congruence | discriminate].
    + intros _. repeat split.
  - rewrite bool_decide_eq_false_2 by exact Hv. simpl. split.
    + intros _. reflexivity.
    + intros H. exfalso. apply H. left. exact Hv.
Qed.

(** ** The grid of valid moves *)

Lemma reduceFrom_push {A : Type} (g : nat -> bool) (l : list A) (i : nat) (acc : list bool) :
  reduceFrom (fun validityArray _ y => validityArray ++ [g y]) i acc l
  = acc ++ (g <$> seq i (length l)).
Proof.
  revert i acc. induction l as [|a l IH]; intros i acc; simpl.
  - rewrite app_nil_r. reflexivity.
  - rewrite IH, <- app_assoc. reflexivity.
Qed.

Lemma reduce_push {A : Type} (g : nat -> bool) (l : list A) :
  reduce (fun validityArray _ y => validityArray ++ [g y]) [] l = g <$> seq 0 (length l).
Proof. unfold reduce. rewrite reduceFrom_push. reflexivity. Qed.

(** C10. [getValidMoves] returns a grid with one row per column of the
    current board, each row as long as its column, whose entry at (x, y) is
    true exactly when the validator answers [valid] for black at (x, y) on
    the current game; the world after the call is the world before. *)
Theorem getValidMoves_grid (w : World) :
  exists grid : list (list bool),
    getValidMoves w = (Returned grid, w)
    /\ length grid = length (board (currentGame w))
    /\ (forall x column, board (currentGame w) !! x = Some column ->
        exists row, grid !! x = Some row /\ length row = length column)
    /\ (forall x y row b, grid !! x = Some row -> row !! y = Some b ->
        (b = true <->
         evaluateIfMoveIsValid (currentGame w) (Z.of_nat x) (Z.of_nat y) GoColor.black
         = GoValidity.valid)).
Proof.
  unfold getValidMoves. run. eexists. split; [reflexivity |].
  split; [apply length_imap |]. split.
  - intros x column Hx. rewrite list_lookup_imap, Hx. simpl.
    eexists. split; [reflexivity |].
    rewrite reduce_push, length_fmap, length_seq. reflexivity.
  - intros x y row b Hrow Hb.
    apply list_lookup_imap_Some in Hrow as (column & Hx & ->).
    rewrite reduce_push in Hb.
    rewrite list_lookup_fmap in Hb.
    destruct (seq 0 (length column) !! y) as [y'|] eqn:Hy; [| discriminate].
    apply lookup_seq in Hy as [-> _]. simpl in Hb.
    injection Hb as <-. apply bool_decide_eq_true.
Qed.

(** ** Starting a new game *)

(** C7. [resetBoardState]: a board size outside 5, 7, 9, 13 for an opponent
    other than w0r1d_d43m0n, and w0r1d_d43m0n without The Red Pill, are
    refused with an error and the world, [Go.currentGame] in it, is the one
    before the call; in every other case [Go.currentGame] becomes the new
    object built by [getNewBoardState] for the requested size and opponent
    and one change notification is emitted. *)
Theorem resetBoardState_checks_configuration
    (opponent : GoOpponent.t) (boardSize : Z) (w : World) :
  let r := resetBoardState logger error opponent boardSize w in
  (unsupportedSize opponent boardSize ->
   r = (Threw (ScriptError (InvalidSubnetSize boardSize)), w))
  /\ (~ unsupportedSize opponent boardSize -> undiscoveredOpponent (player w) opponent ->
      r = (Threw (ScriptError (InvalidOpponent opponent)), w))
  /\ (~ unsupportedSize opponent boardSize -> ~ undiscoveredOpponent (player w) opponent ->
      fst r = Returned (Some (simpleBoardFromBoard (board (getNewBoardState boardSize opponent true))))
      /\ currentGame (snd r) = getNewBoardState boardSize opponent true
      /\ gameId (snd r) = S (gameId w)
      /\ emitted (snd r) = S (emitted w)
      /\ log (snd r) = log w ++ [NewGameStarted opponent boardSize]).
Proof.
  unfold unsupportedSize, undiscoveredOpponent, resetBoardState. run.
  destruct (bool_decide (boardSize ∈ [5; 7; 9; 13])) eqn:Hsize;
    destruct (bool_decide (opponent = GoOpponent.w0r1d_d43m0n)) eqn:Hopp; simpl.
  all: try apply bool_decide_eq_true in Hsize; try apply bool_decide_eq_false in Hsize.
  all: try apply bool_decide_eq_true in Hopp; try apply bool_decide_eq_false in Hopp.
  all: destruct (hasTheRedPill (player w)) eqn:Hpill; simpl.
  all: repeat split; try tauto; try congruence.
  all: try (intros; destruct (gameUnderWay (currentGame w)); reflexivity).
  all: try (intros H; exfalso; apply H; tauto).
  all: try (intros H1 H2; exfalso; apply H2; tauto).
  all: try (intros H1 [H2 H3]; congruence).
Qed.

End MoveProperties.

Section CheatProperties.
Context {engine : Engine}.

(** ** The three outcomes of a cheat attempt *)

Lemma Qle_bool_false (a b : Q) : Qle_bool a b = false <-> (b < a)%Q.
Proof.
  split.
  - intros H. apply Qnot_le_lt. intros Hle. apply Qle_bool_iff in Hle. congruence.
  - intros H. destruct (Qle_bool a b) eqn:E; [| reflexivity].
    apply Qle_bool_iff in E. exfalso. exact (Qlt_not_le _ _ H E).
Qed.

Lemma Qlt_bool_iff (a b : Q) : Qlt_bool a b = true <-> (a < b)%Q.
Proof.
  unfold Qlt_bool. rewrite negb_true_iff. apply Qle_bool_false.
Qed.

Lemma Qlt_bool_false (a b : Q) : Qlt_bool a b = false <-> ~ (a < b)%Q.
Proof.
  rewrite <- Qlt_bool_iff. destruct (Qlt_bool a b); split; congruence.
Qed.

Lemma determineCheatSuccess_success
    (lg : Message -> M unit) (callback : M unit) (so eo : option Q) (w : World) :
  (successRoll so w <= chanceNow w)%Q ->
  determineCheatSuccess lg callback so eo w
  = successRun callback (gameId w) (passesCleared w).
Proof.
  unfold successRoll, chanceNow, determineCheatSuccess, successRun, passesCleared.
  intros Hroll. apply Qle_bool_iff in Hroll. run. rewrite Hroll. reflexivity.
Qed.

Lemma determineCheatSuccess_ejected
    (lg : Message -> M unit) (callback : M unit) (so eo : option Q) (w : World) :
  (chanceNow w < successRoll so w)%Q ->
  (0 < cheatCount (currentGame w))%nat ->
  (ejectRoll so eo w < 0.1)%Q ->
  determineCheatSuccess lg callback so eo w
  = (lg CheatEjected;; endGoGame;; gets nextTurn) (passesCleared w).
Proof.
  unfold successRoll, ejectRoll, chanceNow, determineCheatSuccess, passesCleared.
  intros Hroll Hcount Heject.
  apply Qle_bool_false in Hroll. apply Qlt_bool_iff in Heject.
  unfold mbind at 1 2 3 4 5, M_bind at 1 2 3 4 5, gets at 1 2 3 4, modify at 1. simpl.
  rewrite Hroll, Heject.
  destruct (cheatCount (currentGame w)) as [|k]; [lia |]. reflexivity.
Qed.

Lemma determineCheatSuccess_skipped
    (lg : Message -> M unit) (callback : M unit) (so eo : option Q) (w : World) :
  (chanceNow w < successRoll so w)%Q ->
  cheatCount (currentGame w) = 0%nat \/ ~ (ejectRoll so eo w < 0.1)%Q ->
  determineCheatSuccess lg callback so eo w
  = (lg CheatSkipped;;
     passTurn GoColor.black false;;
     modify (updObject (gameId w) countAttempt);;
     makeAIMove (gameId w)) (passesCleared w).
Proof.
  unfold successRoll, ejectRoll, chanceNow, determineCheatSuccess, passesCleared.
  intros Hroll Hskip.
  apply Qle_bool_false in Hroll.
  unfold mbind at 1 2 3 4 5, M_bind at 1 2 3 4 5, gets at 1 2 3 4, modify at 1. simpl.
  rewrite Hroll.
  destruct Hskip as [Hzero | Hno].
  - rewrite Hzero. reflexivity.
  - apply Qlt_bool_false in Hno. rewrite Hno, andb_false_r. reflexivity.
Qed.

(** With the logger of the API table, the two failures end in the worlds
    [afterEjection] and [afterSkip]. *)
Lemma ejected_world (callback : M unit) (so eo : option Q) (w : World) :
  (chanceNow w < successRoll so w)%Q ->
  (0 < cheatCount (currentGame w))%nat ->
  (ejectRoll so eo w < 0.1)%Q ->
  determineCheatSuccess logger callback so eo w = (Returned (nextTurn w), afterEjection w).
Proof.
  intros H1 H2 H3. rewrite determineCheatSuccess_ejected by assumption.
  reflexivity.
Qed.

Lemma skipped_world (callback : M unit) (so eo : option Q) (w : World) :
  (chanceNow w < successRoll so w)%Q ->
  cheatCount (currentGame w) = 0%nat \/ ~ (ejectRoll so eo w < 0.1)%Q ->
  determineCheatSuccess logger callback so eo w
  = (Returned (Thinking (gameId w)), afterSkip w).
Proof.
  intros H1 H2. rewrite determineCheatSuccess_skipped by assumption.
  unfold afterSkip, passTurn, makeAIMove, updObject, passesCleared. run.
  rewrite decide_True by reflexivity. reflexivity.
Qed.

Lemma afterEjection_game (w : World) :
  currentGame (afterEjection w) = setPreviousPlayer None (setPassCount 0 (currentGame w)).
Proof. reflexivity. Qed.

Lemma afterSkip_game (w : World) :
  currentGame (afterSkip w)
  = countAttempt (setPreviousPlayer (Some GoColor.black) (setPassCount 1 (currentGame w))).
Proof. reflexivity. Qed.

End CheatProperties.

Section CheatClaims.
Context {engine : Engine}.

(** ** The attempt counter *)

(** A cheat that fails and skips the turn is counted. *)
Lemma skip_counts_attempt (callback : M unit) (so eo : option Q) (w : World) :
  (chanceNow w < successRoll so w)%Q ->
  cheatCount (currentGame w) = 0%nat \/ ~ (ejectRoll so eo w < 0.1)%Q ->
  cheatCount (currentGame (snd (determineCheatSuccess logger callback so eo w)))
  = S (cheatCount (currentGame w)).
Proof.
  intros H1 H2. rewrite skipped_world by assumption. reflexivity.
Qed.

(** A cheat that succeeds is counted, for a callback that returns, keeps
    [Go.currentGame] on the same object and does not write the counter (the
    callbacks of the four cheat operations write the board and the previous
    player only). *)
Lemma success_counts_attempt
    (callback : M unit) (so eo : option Q) (w w1 : World) :
  (successRoll so w <= chanceNow w)%Q ->
  callback (passesCleared w) = (Returned tt, w1) ->
  gameId w1 = gameId w ->
  cheatCount (currentGame w1) = cheatCount (currentGame w) ->
  cheatCount (currentGame (snd (determineCheatSuccess logger callback so eo w)))
  = S (cheatCount (currentGame w)).
Proof.
  intros Hroll Hcb Hid Hcount.
  rewrite determineCheatSuccess_success by exact Hroll.
  unfold successRun, makeAIMove, updObject. run. rewrite Hcb. simpl.
  rewrite decide_True by (symmetry; exact Hid). simpl. rewrite Hcount. reflexivity.
Qed.

(** A cheat that fails and ejects the player is not counted: the function
    returns [Go.nextTurn] before [state.cheatCount++]. *)
Lemma ejection_does_not_count (callback : M unit) (so eo : option Q) (w : World) :
  (chanceNow w < successRoll so w)%Q ->
  (0 < cheatCount (currentGame w))%nat ->
  (ejectRoll so eo w < 0.1)%Q ->
  cheatCount (currentGame (snd (determineCheatSuccess logger callback so eo w)))
  = cheatCount (currentGame w).
Proof.
  intros H1 H2 H3. rewrite ejected_world by assumption. reflexivity.
Qed.

(** ** Failure: ejection or a skipped turn *)




(** ** The pass counter *)

Lemma passesCleared_idem (n : nat) (w : World) :
  passesCleared (updGame (setPassCount n) w) = passesCleared w.
Proof. reflexivity. Qed.

(** C9. A cheat attempt overwrites the pass counter with 0 before anything
    else: its result on a world does not depend on the passes made before
    (the call behaves as on the world with a pass counter of 0), and each of
    its three runs starts from the cleared counter: the callback of a
    success; the ejection, which leaves the counter at 0; the skipped turn,
    whose own pass is then the first one and does not end the game. *)
Theorem cheat_attempt_clears_passes
    (callback : M unit) (so eo : option Q) (w : World) (n : nat) :
  let r := determineCheatSuccess logger callback so eo w in
  determineCheatSuccess logger callback so eo (updGame (setPassCount n) w) = r
  /\ (r = successRun callback (gameId w) (passesCleared w)
      \/ (r = (Returned (nextTurn w), afterEjection w)
          /\ passCount (currentGame (snd r)) = 0%nat)
      \/ (r = (Returned (Thinking (gameId w)), afterSkip w)
          /\ passCount (currentGame (snd r)) = 1%nat
          /\ ~ isOver (currentGame (snd r)))).
Proof.
  intros r. subst r. split.
  - unfold determineCheatSuccess. run. reflexivity.
  - destruct (Qlt_le_dec (chanceNow w) (successRoll so w)) as [Hfail | Hok].
    + destruct (Nat.eq_dec (cheatCount (currentGame w)) 0%nat) as [Hzero | Hpos].
      * right. right. rewrite skipped_world by (try assumption; left; exact Hzero).
        repeat split. discriminate.
      * destruct (Qlt_le_dec (ejectRoll so eo w) 0.1) as [Hlt | Hge].
        -- right. left. rewrite ejected_world by (try assumption; lia).
           split; reflexivity.
        -- right. right.
           rewrite skipped_world
             by (try assumption; right; apply Qle_not_lt; exact Hge).
           repeat split. discriminate.
    + left. apply determineCheatSuccess_success. exact Hok.
Qed.

End CheatClaims.

Section ResetProperties.
Context {engine : Engine}.

(** ** A reset while the opponent is thinking *)

(** The resolution of a turn whose game object is no longer
    [Go.currentGame] changes nothing. *)
Lemma resolveOpponentTurn_stale (target : nat) (play : Play) (w : World) :
  target <> gameId w -> resolveOpponentTurn target play w = (Returned play, w).
Proof.
  intros Hstale. unfold resolveOpponentTurn. run.
  rewrite decide_False by exact Hstale. reflexivity.
Qed.

(** Both resets install a new game object. *)
Lemma resetState_new_object (boardSize : Z) (newBoardSize : option Z)
    (newOpponent : option GoOpponent.t) (w : World) :
  let w' := snd (resetState boardSize newBoardSize newOpponent w) in
  gameId w' = S (gameId w)
  /\ currentGame w'
     = getNewBoardState (default boardSize newBoardSize)
         (default (ai (currentGame w)) newOpponent) true.
Proof.
  unfold resetState, rerender. run.
  destruct (gameUnderWay (currentGame w)); split; reflexivity.
Qed.

Lemma resetBoardState_same_or_new (opponent : GoOpponent.t) (boardSize : Z) (w : World) :
  let r := resetBoardState logger error opponent boardSize w in
  snd r = w \/ gameId (snd r) = S (gameId w).
Proof.
  unfold resetBoardState. run.
  destruct (negb (bool_decide (boardSize ∈ [5; 7; 9; 13]))
            && negb (bool_decide (opponent = GoOpponent.w0r1d_d43m0n))); simpl;
    [left; reflexivity |].
  destruct (bool_decide (opponent = GoOpponent.w0r1d_d43m0n)
            && negb (hasTheRedPill (player w))); simpl; [left; reflexivity |].
  right. destruct (gameUnderWay (currentGame w)); reflexivity.
Qed.

(** C8. An opponent turn that was pending for the game object current
    before a reset is stale afterwards: when it resolves, with whatever play,
    the world is left as the reset made it, its board included.  This holds
    for [resetState] of the board wrapper and for [resetBoardState] of the
    API whenever it did reset (when it refused, the world is the one before
    the call and the turn is not stale). *)
Theorem stale_opponent_turn_is_discarded (play : Play) (w : World) :
  (forall (boardSize : Z) (newBoardSize : option Z) (newOpponent : option GoOpponent.t),
     let w' := snd (resetState boardSize newBoardSize newOpponent w) in
     resolveOpponentTurn (gameId w) play w' = (Returned play, w')
     /\ board (currentGame (snd (resolveOpponentTurn (gameId w) play w')))
        = board (getNewBoardState (default boardSize newBoardSize)
                   (default (ai (currentGame w)) newOpponent) true))
  /\ (forall (opponent : GoOpponent.t) (boardSize : Z),
        let r := resetBoardState logger error opponent boardSize w in
        snd r = w
        \/ resolveOpponentTurn (gameId w) play (snd r) = (Returned play, snd r)).
Proof.
  split.
  - intros boardSize newBoardSize newOpponent w'.
    destruct (resetState_new_object boardSize newBoardSize newOpponent w) as [Hid Hgame].
    fold w' in Hid, Hgame.
    assert (Hres : resolveOpponentTurn (gameId w) play w' = (Returned play, w')).
    { apply resolveOpponentTurn_stale. rewrite Hid. lia. }
    split; [exact Hres |]. rewrite Hres. simpl. rewrite Hgame. reflexivity.
  - intros opponent boardSize r.
    destruct (resetBoardState_same_or_new opponent boardSize w) as [Hsame | Hnew].
    + left. exact Hsame.
    + right. apply resolveOpponentTurn_stale. fold r in Hnew. rewrite Hnew. lia.
Qed.

End ResetProperties.

(** * The layer on concrete worlds *)

(** C1. A failed cheat that ejects the player leaves the attempt counter as
    it was.  On [Sample.midgame] (one earlier attempt, black to move, a black
    router on (2, 2)) [cheatRemoveRouter] at (2, 2) with a success roll of 1
    (above the chance 0.408) and an eject roll of 0 (below 0.1) logs the
    ejection and ends the game, and the counter is still 1, not 2. *)
Theorem ejection_leaves_cheatCount :
  let r := cheatRemoveRouter logger 2 2 (Some 1%Q) (Some 0%Q) Sample.midgame in
  cheatCount (currentGame Sample.midgame) = 1%nat
  /\ (chanceNow Sample.midgame == 0.408)%Q
  /\ log (snd r) = [CheatEjected]
  /\ isOver (currentGame (snd r))
  /\ cheatCount (currentGame (snd r)) = 1%nat.
Proof.
  vm_compute. repeat split.
Qed.

(** The other two outcomes on the same world count the attempt. *)
Example success_counts_on_midgame :
  let r := cheatRemoveRouter logger 2 2 (Some 0%Q) (Some 0%Q) Sample.midgame in
  log (snd r) = [PointCleared 2 2]
  /\ cheatCount (currentGame (snd r)) = 2%nat.
Proof. vm_compute. repeat split. Qed.

Example skip_counts_on_midgame :
  let r := cheatRemoveRouter logger 2 2 (Some 1%Q) (Some 0.5%Q) Sample.midgame in
  log (snd r) = [CheatSkipped]
  /\ previousPlayer (currentGame (snd r)) = Some GoColor.black
  /\ cheatCount (currentGame (snd r)) = 2%nat.
Proof. vm_compute. repeat split. Qed.

(** The remaining cheat operations, on the same rolls. *)
Example other_cheats_on_midgame :
  cheatCount (currentGame (snd (cheatPlayTwoMoves logger 0 0 1 1 (Some 1%Q) (Some 0%Q)
                                  Sample.midgame))) = 1%nat
  /\ cheatCount (currentGame (snd (cheatRepairOfflineNode logger 0 0 (Some 1%Q) (Some 0%Q)
                                     Sample.midgame))) = 1%nat
  /\ cheatCount (currentGame (snd (cheatDestroyNode logger 0 0 (Some 1%Q) (Some 0%Q)
                                     Sample.midgame))) = 1%nat
  /\ cheatCount (currentGame (snd (cheatDestroyNode logger 0 0 (Some 0%Q) (Some 0%Q)
                                     Sample.midgame))) = 2%nat.
Proof. vm_compute. repeat split. Qed.


(** A point outside the 5x5 board. *)
Lemma validateMove_rejects_out_of_bounds_witness :
  ~ inBounds Sample.start 5 1
  /\ validateMove error 5 1 "makeMove" noSettings Sample.start
     = (Threw (ScriptError (InvalidColumn 5 4)), Sample.start)
  /\ NetscriptGo.destroyNode 5 1 Sample.start
     = (Threw (ScriptError (InvalidColumn 5 4)), Sample.start).
Proof.
  assert (Hout : ~ inBounds Sample.start 5 1).
  { unfold inBounds. vm_compute. intros [[_ H] _]. discriminate H. }
  split; [exact Hout |].
  destruct (validateMove_rejects_out_of_bounds 5 1 0 0 "makeMove" noSettings Sample.start Hout)
    as (Hvalidate & _ & _ & Hcheats).
  split; [exact Hvalidate |].
  apply Hcheats. left. vm_compute. reflexivity.
Defined.


(** ** Sample runs of the entry points *)

Example makeMove_on_start :
  let r := NetscriptGo.makeMove 1 1 Sample.start in
  fst r = Returned (Thinking 0)
  /\ boardString (board (currentGame (snd r))) = "......X.................."
  /\ previousPlayer (currentGame (snd r)) = Some GoColor.black
  /\ emitted (snd r) = 1%nat
  /\ log (snd r) = [MovePlayed 1 1].
Proof. vm_compute. repeat split. Qed.

Example makePlayerMove_on_router :
  makePlayerMove logger error 2 2 Sample.midgame
  = (Threw (ScriptError (InvalidMove 2 2 GoValidity.pointNotEmpty)), Sample.midgame).
Proof. vm_compute. reflexivity. Qed.

Example validateTurn_after_black_moved :
  let w := snd (NetscriptGo.makeMove 1 1 Sample.start) in
  fst (NetscriptGo.makeMove 3 3 w)
  = Threw (ScriptError (TurnRejected (mkMoveString "makeMove" (Some (3, 3)))
                          GoValidity.notYourTurn)).
Proof. vm_compute. reflexivity. Qed.

Example getValidMoves_on_midgame :
  fst (getValidMoves Sample.midgame)
  = Returned [[true; true; true; true; true]; [true; true; true; true; true];
              [true; true; false; true; true]; [true; true; true; true; true];
              [true; true; true; true; true]].
Proof. vm_compute. reflexivity. Qed.

Example resetBoardState_size_6 :
  NetscriptGo.resetBoardState (GoOpponent.faction "Netburners") 6 Sample.midgame
  = (Threw (ScriptError (InvalidSubnetSize 6)), Sample.midgame).
Proof. vm_compute. reflexivity. Qed.

Example resetBoardState_undiscovered :
  NetscriptGo.resetBoardState GoOpponent.w0r1d_d43m0n 5 Sample.midgame
  = (Threw (ScriptError (InvalidOpponent GoOpponent.w0r1d_d43m0n)), Sample.midgame).
Proof. vm_compute. reflexivity. Qed.

Example resetBoardState_size_7 :
  let r := NetscriptGo.resetBoardState (GoOpponent.faction "Netburners") 7 Sample.midgame in
  length (board (currentGame (snd r))) = 7%nat
  /\ cheatCount (currentGame (snd r)) = 0%nat
  /\ gameId (snd r) = 1%nat
  /\ emitted (snd r) = 1%nat.
Proof. vm_compute. repeat split. Qed.

(** The opponent was thinking about [Sample.midgame] when the board was
    reset: its move, resolved afterwards, does not reach the new board. *)
Example stale_move_after_reset :
  let w := snd (NetscriptGo.resetBoardState (GoOpponent.faction "Netburners") 5
                  Sample.midgame) in
  let play := mkPlay GoPlayType.move (Some 0) (Some 0) in
  boardString (board (currentGame (snd (resolveOpponentTurn 0 play w))))
  = "........................."
  /\ boardString (board (currentGame (snd (resolveOpponentTurn 1 play w))))
     = "O........................".
Proof. vm_compute. repeat split. Qed.

(** * Further properties of the layer *)

Section TurnAndAccess.
Context {engine : Engine}.

(** ** Whose turn it is *)

(** X1. The turn gate and the turn query agree: [validateTurn] lets a call
    through exactly when [getCurrentPlayer] answers Black. *)
Theorem validateTurn_agrees_with_getCurrentPlayer (moveString : MoveString) (w : World) :
  fst (validateTurn error moveString w) = Returned tt
  <-> fst (getCurrentPlayer w) = Returned (Some GoColor.black).
Proof.
  unfold validateTurn, getCurrentPlayer. run.
  destruct (previousPlayer (currentGame w)) as [[| |]|]; simpl; split; congruence.
Qed.

(** ** The lock of the cheat API *)

Lemma checkCheatApiAccess_locked (w : World) :
  ~ cheatApiOpen (player w) ->
  checkCheatApiAccess error w = (Threw (ScriptError CheatApiLocked), w).
Proof.
  unfold cheatApiOpen, checkCheatApiAccess. intros Hlocked. run.
  destruct (1 <? sourceFileLvl (player w) 14) eqn:H1; simpl.
  - apply Z.ltb_lt in H1. tauto.
  - destruct (sourceFileLvl (player w) 14 =? 1) eqn:H2; simpl; [| reflexivity].
    destruct (bitNodeN (player w) =? 14) eqn:H3; simpl; [| reflexivity].
    apply Z.eqb_eq in H2, H3. tauto.
Qed.

(** X2. Without Source-File 14.2 every function of [ns.go.cheat], the two
    queries included, throws the lock error and leaves the world as it was,
    whatever the coordinates: the lock is checked before them. *)
Theorem cheat_api_is_locked (x y x2 y2 : Z) (n : option nat) (w : World) :
  ~ cheatApiOpen (player w) ->
  let locked := ScriptError CheatApiLocked in
  GoApi.getCheatSuccessChance n w = (Threw locked, w)
  /\ GoApi.getCheatCount w = (Threw locked, w)
  /\ NetscriptGo.removeRouter x y w = (Threw locked, w)
  /\ NetscriptGo.playTwoMoves x y x2 y2 w = (Threw locked, w)
  /\ NetscriptGo.repairOfflineNode x y w = (Threw locked, w)
  /\ NetscriptGo.destroyNode x y w = (Threw locked, w).
Proof.
  intros Hlocked locked. subst locked.
  unfold GoApi.getCheatSuccessChance, GoApi.getCheatCount, NetscriptGo.removeRouter,
         NetscriptGo.playTwoMoves, NetscriptGo.repairOfflineNode, NetscriptGo.destroyNode.
  unfold mbind, M_bind, gets.
  rewrite !checkCheatApiAccess_locked by exact Hlocked.
  repeat split.
Qed.

End TurnAndAccess.

Section Validation.
Context {engine : Engine}.

(** ** What [validateMove] lets through *)

Lemma at_in_range {A : Type} (l : list A) (i : Z) :
  0 <= i < Z.of_nat (length l) <-> is_Some (at_ l i).
Proof.
  unfold at_. destruct (i <? 0) eqn:Hi.
  - apply Z.ltb_lt in Hi. split; [lia | intros [a Ha]; discriminate].
  - apply Z.ltb_ge in Hi. rewrite lookup_lt_is_Some. lia.
Qed.

Lemma andb_false_guard (a b : bool) : a && b = false -> b = true -> a = false.
Proof. destruct a, b; simpl; congruence. Qed.

Lemma andb_true_guard (a b : bool) : a && b = true -> a = true /\ b = true.
Proof. destruct a, b; simpl; auto; discriminate. Qed.

Lemma validateMove_verdict (x y : Z) (methodName : string) (settings : Settings) (w : World) :
  let check := spread defaultCheck settings in
  let validity := evaluateIfMoveIsValid (currentGame w) x y GoColor.black in
  snd (validateMove error x y methodName settings w) = w
  /\ match fst (validateMove error x y methodName settings w) with
     | Returned _ => moveAccepted check validity w x y
     | Threw (ScriptError _) => ~ moveAccepted check validity w x y
     | Threw TypeError => False
     end.
Proof.
  intros check validity. subst validity check.
  unfold validateMove. cbv zeta.
  generalize (spread defaultCheck settings). intros check.
  unfold moveAccepted, inBounds, blackMayMove, boardSizeOf, pointAt.
  unfold validateTurn, boardAt. run.
  destruct (x <? 0) eqn:Hx0; simpl.
  { split; [reflexivity |]. apply Z.ltb_lt in Hx0. intros ([[? ?] _] & _). lia. }
  apply Z.ltb_ge in Hx0.
  destruct (x >=? Z.of_nat (length (board (currentGame w)))) eqn:Hx1; simpl.
  { split; [reflexivity |]. rewrite Z.geb_leb in Hx1. apply Z.leb_le in Hx1.
    intros ([[? ?] _] & _). lia. }
  apply geb_false_lt in Hx1.
  destruct (y <? 0) eqn:Hy0; simpl.
  { split; [reflexivity |]. apply Z.ltb_lt in Hy0. intros ([_ [? ?]] & _). lia. }
  apply Z.ltb_ge in Hy0.
  destruct (y >=? Z.of_nat (length (board (currentGame w)))) eqn:Hy1; simpl.
  { split; [reflexivity |]. rewrite Z.geb_leb in Hy1. apply Z.leb_le in Hy1.
    intros ([_ [? ?]] & _). lia. }
  apply geb_false_lt in Hy1.
  destruct (previousPlayer (currentGame w)) as [[| |]|] eqn:Hp; simpl.
  2: { split; [reflexivity |]. intros (_ & [? _] & _). congruence. }
  3: { split; [reflexivity |]. intros (_ & [_ ?] & _). congruence. }
  all: destruct (at_ (board (currentGame w)) x) as [column|] eqn:Hcol; simpl.
  all: try (exfalso;
            assert (Hsome : is_Some (at_ (board (currentGame w)) x))
              by (apply at_in_range; lia);
            rewrite Hcol in Hsome; destruct Hsome as [? ?]; discriminate).
  all: set (point := mjoin (at_ column y)).
  all: destruct (negb (bool_decide (is_Some point)) && onlineNode check) eqn:C1; simpl.
  all: try (split; [reflexivity |]; apply andb_true_guard in C1 as [C1 C1'];
            apply negb_true_iff, bool_decide_eq_false in C1;
            intros (_ & _ & H & _); apply C1, H, C1').
  all: destruct (bool_decide (evaluateIfMoveIsValid (currentGame w) x y GoColor.black
                              = GoValidity.noSuicide) && suicide check) eqn:C2; simpl.
  all: try (split; [reflexivity |]; apply andb_true_guard in C2 as [C2 C2'];
            apply bool_decide_eq_true in C2;
            intros (_ & _ & _ & H & _); exact (H C2' C2)).
  all: destruct (bool_decide (evaluateIfMoveIsValid (currentGame w) x y GoColor.black
                              = GoValidity.boardRepeated) && repeatCheck check) eqn:C3; simpl.
  all: try (split; [reflexivity |]; apply andb_true_guard in C3 as [C3 C3'];
            apply bool_decide_eq_true in C3;
            intros (_ & _ & _ & _ & H & _); exact (H C3' C3)).
  all: destruct (negb (colorIsEmpty point) && emptyNode check) eqn:C4; simpl.
  all: try (split; [reflexivity |]; apply andb_true_guard in C4 as [C4 C4'];
            apply negb_true_iff in C4;
            intros (_ & _ & _ & _ & _ & H & _); rewrite (H C4') in C4; discriminate).
  all: destruct (colorIsEmpty point && requireNonEmptyNode check) eqn:C5; simpl.
  all: try (split; [reflexivity |]; apply andb_true_guard in C5 as [C5 C5'];
            intros (_ & _ & _ & _ & _ & _ & H & _); rewrite (H C5') in C5; discriminate).
  all: destruct (bool_decide (is_Some point) && requireOfflineNode check) eqn:C6; simpl.
  all: try (split; [reflexivity |]; apply andb_true_guard in C6 as [C6 C6'];
            apply bool_decide_eq_true in C6;
            intros (_ & _ & _ & _ & _ & _ & _ & H); rewrite (H C6') in C6;
            destruct C6 as [? ?]; discriminate).
  all: split; [reflexivity |].
  all: split; [lia |]; split; [split; congruence |].
  all: split; [intros Hc; apply (andb_false_guard _ _ C1) in Hc;
               apply negb_false_iff, bool_decide_eq_true in Hc; exact Hc |].
  all: split; [intros Hc; apply (andb_false_guard _ _ C2) in Hc;
               apply bool_decide_eq_false in Hc; exact Hc |].
  all: split; [intros Hc; apply (andb_false_guard _ _ C3) in Hc;
               apply bool_decide_eq_false in Hc; exact Hc |].
  all: split; [intros Hc; apply (andb_false_guard _ _ C4) in Hc;
               apply negb_false_iff in Hc; exact Hc |].
  all: split; [intros Hc; apply (andb_false_guard _ _ C5) in Hc; exact Hc |].
  all: intros Hc; apply (andb_false_guard _ _ C6) in Hc;
       apply bool_decide_eq_false in Hc;
       destruct point; [exfalso; apply Hc; eexists; reflexivity | reflexivity].
Qed.

(** X3. [validateMove] only checks: whatever it is given, the world after
    it is the world before, it never fails with a [TypeError] (the column is
    read after the bounds checks), and it returns exactly when the point is
    on the board, black may move and every check that is switched on is
    met. *)
Theorem validateMove_accepts_iff
    (x y : Z) (methodName : string) (settings : Settings) (w : World) :
  let r := validateMove error x y methodName settings w in
  snd r = w
  /\ fst r <> Threw TypeError
  /\ (fst r = Returned tt
      <-> moveAccepted (spread defaultCheck settings)
            (evaluateIfMoveIsValid (currentGame w) x y GoColor.black) w x y).
Proof.
  intros r. subst r.
  destruct (validateMove_verdict x y methodName settings w) as [Hw Hv].
  split; [exact Hw |].
  destruct (fst (validateMove error x y methodName settings w)) as [[] | [m |]].
  - split; [discriminate |]. split; [intros _; exact Hv | reflexivity].
  - split; [discriminate |]. split; [discriminate | intros H; contradiction].
  - contradiction.
Qed.

End Validation.

Section EntryPoints.
Context {engine : Engine}.

(** ** How the entry points end *)

Lemma checkCheatApiAccess_outcome (w : World) :
  checkCheatApiAccess error w = (Returned tt, w)
  \/ checkCheatApiAccess error w = (Threw (ScriptError CheatApiLocked), w).
Proof.
  unfold checkCheatApiAccess. run.
  destruct (negb (1 <? sourceFileLvl (player w) 14)
            && negb ((sourceFileLvl (player w) 14 =? 1) && (bitNodeN (player w) =? 14)));
    simpl; auto.
Qed.

Lemma boardAssign_returns (x y : Z) (v : option PointState.t) (w : World)
    (column : list (option PointState.t)) :
  at_ (board (currentGame w)) x = Some column ->
  boardAssign x y v w
  = (Returned tt,
     updGame (setBoard (<[Z.to_nat x := assignAt column y v]> (board (currentGame w)))) w).
Proof. intros H. unfold boardAssign. run. rewrite H. reflexivity. Qed.

Lemma at_insert_is_Some {A : Type} (l : list A) (i : Z) (j : nat) (a : A) :
  is_Some (at_ l i) -> is_Some (at_ (<[j := a]> l) i).
Proof. rewrite <- !at_in_range, length_insert. auto. Qed.

(** A cheat whose callback returns and leaves black as previous player
    returns with the turn handed over, whatever the rolls. *)
Lemma determineCheatSuccess_hands_over
    (callback : M unit) (so eo : option Q) (w w1 : World) :
  callback (passesCleared w) = (Returned tt, w1) ->
  previousPlayer (currentGame w1) = Some GoColor.black ->
  exists t w',
    determineCheatSuccess logger callback so eo w = (Returned t, w')
    /\ turnHandedOver (currentGame w').
Proof.
  intros Hcb Hprev. unfold turnHandedOver.
  destruct (Qlt_le_dec (chanceNow w) (successRoll so w)) as [Hfail | Hok].
  - destruct (Nat.eq_dec (cheatCount (currentGame w)) 0%nat) as [Hzero | Hpos].
    + rewrite skipped_world by (try assumption; left; exact Hzero).
      eexists _, _. split; [reflexivity |]. left. reflexivity.
    + destruct (Qlt_le_dec (ejectRoll so eo w) 0.1) as [Hlt | Hge].
      * rewrite ejected_world by (try assumption; lia).
        eexists _, _. split; [reflexivity |]. right. reflexivity.
      * rewrite skipped_world by (try assumption; right; apply Qle_not_lt; exact Hge).
        eexists _, _. split; [reflexivity |]. left. reflexivity.
  - rewrite determineCheatSuccess_success by exact Hok.
    unfold successRun, makeAIMove, updObject. run. rewrite Hcb. simpl.
    eexists _, _. split; [reflexivity |]. left.
    destruct (decide (gameId w = gameId w1)); simpl; exact Hprev.
Qed.

Lemma accepted_column (check : Check) (validity : GoValidity.t) (w : World) (x y : Z) :
  moveAccepted check validity w x y ->
  exists column, at_ (board (currentGame w)) x = Some column
                 /\ pointAt (board (currentGame w)) x y = mjoin (at_ column y).
Proof.
  intros ([Hx _] & _).
  assert (Hsome : is_Some (at_ (board (currentGame w)) x)) by (apply at_in_range; exact Hx).
  destruct Hsome as [column Hcol]. exists column. split; [exact Hcol |].
  unfold pointAt. rewrite Hcol. reflexivity.
Qed.

Lemma colorIsEmpty_is_Some (point : option PointState.t) :
  colorIsEmpty point = true -> is_Some point.
Proof. destruct point; [eauto | discriminate]. Qed.

Lemma cheatRemoveRouter_hands_over (x y : Z) (so eo : option Q) (w : World)
    (check : Check) (validity : GoValidity.t) :
  moveAccepted check validity w x y -> onlineNode check = true ->
  exists t w', cheatRemoveRouter logger x y so eo w = (Returned t, w')
               /\ turnHandedOver (currentGame w').
Proof.
  intros Hacc Honline.
  destruct (accepted_column _ _ _ _ _ Hacc) as (column & Hcol & Hpoint).
  destruct Hacc as (_ & _ & Hon & _). specialize (Hon Honline).
  rewrite Hpoint in Hon. destruct Hon as [p Hp].
  unfold cheatRemoveRouter, boardAt.
  unfold mbind at 1 2, M_bind at 1 2, gets at 1. simpl. rewrite Hcol. simpl. rewrite Hp.
  eapply determineCheatSuccess_hands_over.
  - unfold pointSetColor. unfold mbind at 1, M_bind at 1.
    rewrite (boardAssign_returns x y _ (passesCleared w) column) by exact Hcol.
    run. reflexivity.
  - reflexivity.
Qed.

Lemma cheatPlayTwoMoves_hands_over (x1 y1 x2 y2 : Z) (so eo : option Q) (w : World)
    (check : Check) (v1 v2 : GoValidity.t) :
  moveAccepted check v1 w x1 y1 -> moveAccepted check v2 w x2 y2 ->
  emptyNode check = true ->
  exists t w', cheatPlayTwoMoves logger x1 y1 x2 y2 so eo w = (Returned t, w')
               /\ turnHandedOver (currentGame w').
Proof.
  intros Hacc1 Hacc2 Hempty.
  destruct (accepted_column _ _ _ _ _ Hacc1) as (column1 & Hcol1 & Hpoint1).
  destruct (accepted_column _ _ _ _ _ Hacc2) as (column2 & Hcol2 & Hpoint2).
  destruct Hacc1 as (_ & _ & _ & _ & _ & He1 & _).
  destruct Hacc2 as (_ & _ & _ & _ & _ & He2 & _).
  apply colorIsEmpty_is_Some in He1; [| exact Hempty].
  apply colorIsEmpty_is_Some in He2; [| exact Hempty].
  rewrite Hpoint1 in He1. rewrite Hpoint2 in He2.
  destruct He1 as [p1 Hp1]. destruct He2 as [p2 Hp2].
  unfold cheatPlayTwoMoves, boardAt.
  unfold mbind at 1 2 3, M_bind at 1 2 3, gets at 1. simpl.
  rewrite Hcol1. simpl. rewrite Hcol2. simpl. rewrite Hp1, Hp2.
  set (b1 := <[Z.to_nat x1 := assignAt column1 y1 (Some (PointState.setColor GoColor.black p1))]>
               (board (currentGame w))).
  assert (Hsome : is_Some (at_ b1 x2)).
  { apply at_insert_is_Some. rewrite Hcol2. eauto. }
  destruct Hsome as [column2' Hcol2'].
  eapply determineCheatSuccess_hands_over.
  - unfold pointSetColor. unfold mbind at 1, M_bind at 1.
    rewrite (boardAssign_returns x1 y1 _ (passesCleared w) column1) by exact Hcol1.
    unfold mbind at 1, M_bind at 1.
    rewrite (boardAssign_returns x2 y2 _ _ column2') by exact Hcol2'.
    run. reflexivity.
  - reflexivity.
Qed.

Lemma cheat_by_assignment_hands_over (x y : Z) (v : option PointState.t) (note : Message)
    (so eo : option Q) (w : World) (check : Check) (validity : GoValidity.t) :
  moveAccepted check validity w x y ->
  exists t w',
    determineCheatSuccess logger
      (boardAssign x y v;;
       modify (updGame (fun s => setBoard (updateChains (board s)) s));;
       modify (updGame (setPreviousPlayer (Some GoColor.black)));;
       logger note) so eo w = (Returned t, w')
    /\ turnHandedOver (currentGame w').
Proof.
  intros Hacc.
  destruct (accepted_column _ _ _ _ _ Hacc) as (column & Hcol & _).
  eapply determineCheatSuccess_hands_over.
  - unfold mbind at 1, M_bind at 1.
    rewrite (boardAssign_returns x y _ (passesCleared w) column) by exact Hcol.
    run. reflexivity.
  - reflexivity.
Qed.

(** Every entry point that places or removes a router ends cleanly. *)
Lemma entry_points_end_cleanly (x y x2 y2 : Z) (w : World) :
  endedCleanly w (NetscriptGo.makeMove x y w)
  /\ endedCleanly w (NetscriptGo.removeRouter x y w)
  /\ endedCleanly w (NetscriptGo.playTwoMoves x y x2 y2 w)
  /\ endedCleanly w (NetscriptGo.repairOfflineNode x y w)
  /\ endedCleanly w (NetscriptGo.destroyNode x y w).
Proof.
  unfold endedCleanly.
  assert (Hvalidate : forall x y methodName settings,
    (exists m, validateMove error x y methodName settings w = (Threw (ScriptError m), w))
    \/ (validateMove error x y methodName settings w = (Returned tt, w)
        /\ moveAccepted (spread defaultCheck settings)
             (evaluateIfMoveIsValid (currentGame w) x y GoColor.black) w x y)).
  { intros x0 y0 methodName settings.
    destruct (validateMove_verdict x0 y0 methodName settings w) as [Hw Hv].
    destruct (validateMove error x0 y0 methodName settings w) as [o w0].
    simpl in Hw, Hv. subst w0.
    destruct o as [[] | [m |]]; [right; auto | left; eauto | contradiction]. }
  repeat split.
  - unfold NetscriptGo.makeMove. unfold mbind, M_bind.
    destruct (Hvalidate x y "makeMove" noSettings) as [[m Hm] | [Hok _]].
    + rewrite Hm. left. eauto.
    + rewrite Hok. unfold makePlayerMove, makeMove, makeAIMove. run.
      destruct (decide (evaluateIfMoveIsValid (currentGame w) x y GoColor.black
                        = GoValidity.valid)) as [Hv | Hv]; simpl.
      * rewrite Hv. simpl. right. eexists _, _. split; [reflexivity |]. left. reflexivity.
      * rewrite bool_decide_eq_false_2 by exact Hv. simpl. left. eauto.
  - unfold NetscriptGo.removeRouter. unfold mbind, M_bind.
    destruct (checkCheatApiAccess_outcome w) as [-> | ->]; [| left; eauto].
    destruct (Hvalidate x y "removeRouter"
                (mkSettings (Some false) (Some true) (Some false) None None (Some false)))
      as [[m Hm] | [Hok Hacc]].
    + rewrite Hm. left. eauto.
    + rewrite Hok. right.
      eapply cheatRemoveRouter_hands_over; [exact Hacc | reflexivity].
  - unfold NetscriptGo.playTwoMoves. unfold mbind, M_bind.
    destruct (checkCheatApiAccess_outcome w) as [-> | ->]; [| left; eauto].
    destruct (Hvalidate x y "playTwoMoves"
                (mkSettings None None (Some false) None None (Some false)))
      as [[m Hm] | [Hok Hacc]].
    + rewrite Hm. left. eauto.
    + rewrite Hok.
      destruct (Hvalidate x2 y2 "playTwoMoves"
                  (mkSettings None None (Some false) None None (Some false)))
        as [[m Hm] | [Hok2 Hacc2]].
      * rewrite Hm. left. eauto.
      * rewrite Hok2. right.
        eapply cheatPlayTwoMoves_hands_over; [exact Hacc | exact Hacc2 | reflexivity].
  - unfold NetscriptGo.repairOfflineNode. unfold mbind, M_bind.
    destruct (checkCheatApiAccess_outcome w) as [-> | ->]; [| left; eauto].
    destruct (Hvalidate x y "repairOfflineNode"
                (mkSettings (Some false) None (Some false) (Some false) (Some true)
                            (Some false)))
      as [[m Hm] | [Hok Hacc]].
    + rewrite Hm. left. eauto.
    + rewrite Hok. right. unfold cheatRepairOfflineNode.
      eapply cheat_by_assignment_hands_over. exact Hacc.
  - unfold NetscriptGo.destroyNode. unfold mbind, M_bind.
    destruct (checkCheatApiAccess_outcome w) as [-> | ->]; [| left; eauto].
    destruct (Hvalidate x y "destroyNode"
                (mkSettings None None (Some false) (Some true) None (Some false)))
      as [[m Hm] | [Hok Hacc]].
    + rewrite Hm. left. eauto.
    + rewrite Hok. right. unfold cheatDestroyNode.
      eapply cheat_by_assignment_hands_over. exact Hacc.
Qed.

(** X4. The entry points that place or remove a router end cleanly.  When
    one throws, it throws a script error, never a [TypeError], and the world
    is the one before the call.  When one returns, the turn has been handed
    over (black is the previous player or the game is over), so the turn
    gate refuses a second call until the opponent has moved. *)
Theorem entry_points_fail_cleanly_or_hand_over (x y x2 y2 : Z) (w : World) :
  Forall (fun entry : M Turn =>
            let r := entry w in
            (forall e, fst r = Threw e -> (exists m, e = ScriptError m) /\ snd r = w)
            /\ (forall t moveString, fst r = Returned t ->
                turnHandedOver (currentGame (snd r))
                /\ fst (validateTurn error moveString (snd r)) <> Returned tt))
         (placingEntryPoints x y x2 y2).
Proof.
  assert (Hclean : forall r : Outcome Turn * World, endedCleanly w r ->
            (forall e, fst r = Threw e -> (exists m, e = ScriptError m) /\ snd r = w)
            /\ (forall t moveString, fst r = Returned t ->
                turnHandedOver (currentGame (snd r))
                /\ fst (validateTurn error moveString (snd r)) <> Returned tt)).
  { intros r [[m ->] | (t & w' & -> & Hover)]; simpl; split.
    - intros e He. injection He as <-. eauto.
    - intros t ms Ht. discriminate Ht.
    - intros e He. discriminate He.
    - intros _ ms _. split; [exact Hover |].
      unfold validateTurn. run.
      destruct Hover as [-> | ->]; simpl; discriminate. }
  destruct (entry_points_end_cleanly x y x2 y2 w) as (H1 & H2 & H3 & H4 & H5).
  unfold placingEntryPoints.
  repeat (apply Forall_cons; split; [apply Hclean; assumption |]).
  apply Forall_nil. exact I.
Qed.

End EntryPoints.

Section Queries.
Context {engine : Engine}.

(** ** Liberties *)

Lemma reduceFrom_push_value {A B : Type} (f : A -> B) (l : list A) (i : nat) (acc : list B) :
  reduceFrom (fun array a (_ : nat) => array ++ [f a]) i acc l = acc ++ (f <$> l).
Proof.
  revert i acc. induction l as [|a l IH]; intros i acc; simpl.
  - rewrite app_nil_r. reflexivity.
  - rewrite IH, <- app_assoc. reflexivity.
Qed.

(** X5. [getLiberties] maps every point of the board to its number of
    liberties and never answers 0: an offline node, a point whose liberties
    are not computed and a point with an empty list of liberties all read
    -1, every other point reads the (positive) length of its list.  The
    world is not changed. *)
Theorem getLiberties_never_zero (w : World) :
  getLiberties w
  = (Returned ((fun column : list (option PointState.t) => libertyCount <$> column)
               <$> board (currentGame w)), w)
  /\ (forall point : option PointState.t,
        (libertyCount point = -1 \/ 0 < libertyCount point)
        /\ (0 < libertyCount point
            <-> exists p l, point = Some p /\ PointState.liberties p = Some l
                            /\ l <> [] /\ libertyCount point = Z.of_nat (length l))).
Proof.
  split.
  - unfold getLiberties. run. f_equal. f_equal.
    apply list_fmap_ext. intros _ column _.
    unfold reduce. rewrite reduceFrom_push_value. reflexivity.
  - intros [p|]; simpl.
    + destruct (PointState.liberties p) as [l|] eqn:Hl.
      * destruct l as [|a l]; simpl.
        -- split; [left; reflexivity |].
           split; [lia | intros (p' & l' & Hp & Hl' & Hne & _)].
           injection Hp as <-. rewrite Hl in Hl'. injection Hl' as <-. contradiction.
        -- split; [right; lia |].
           split; [intros _ | lia].
           exists p, (a :: l). repeat split; [exact Hl | discriminate].
      * split; [left; reflexivity |].
        split; [lia | intros (p' & l' & Hp & Hl' & _)].
        injection Hp as <-. rewrite Hl in Hl'. discriminate.
    + split; [left; reflexivity |].
      split; [lia | intros (p' & l' & Hp & _); discriminate].
Qed.

(** ** Chain numbers *)

Lemma indexOfFrom_lookup (c : string) (l : list string) (i : Z) (k : nat) :
  NoDup l -> l !! k = Some c -> indexOfFrom c i l = i + Z.of_nat k.
Proof.
  revert i k. induction l as [|d l IH]; intros i k Hnd Hk; [discriminate |].
  apply NoDup_cons in Hnd as [Hd Hnd]. simpl.
  destruct k as [|k]; simpl in Hk.
  - injection Hk as ->. rewrite decide_True by reflexivity. lia.
  - destruct (decide (d = c)) as [-> | _].
    + exfalso. apply Hd. apply list_elem_of_lookup. eauto.
    + rewrite (IH (i + 1) k Hnd Hk). lia.
Qed.

Lemma numbered_extend (names ext : list string) (point : option PointState.t)
    (entry : option Z) :
  numbered names point entry -> numbered (names ++ ext) point entry.
Proof.
  destruct point as [p|]; simpl; [| auto].
  intros (k & He & Hk). exists k. split; [exact He |].
  apply lookup_app_l_Some. exact Hk.
Qed.

Lemma chainStep_numbers (names : list string) (ids : list (option Z))
    (point : option PointState.t) (y : nat) :
  NoDup names ->
  exists ext entry,
    chainStep (names, ids) point y = (names ++ ext, ids ++ [entry])
    /\ NoDup (names ++ ext)
    /\ numbered (names ++ ext) point entry
    /\ (forall c, c ∈ ext -> exists p, point = Some p /\ PointState.chain p = c).
Proof.
  intros Hnd. unfold chainStep. destruct point as [p|]; simpl.
  - unfold includes. case_bool_decide as Hin.
    + apply list_elem_of_lookup in Hin as [k Hk].
      exists [], (Some (Z.of_nat k)). rewrite app_nil_r.
      split; [| split; [exact Hnd | split; [exists k; auto |]]].
      * unfold indexOf. rewrite (indexOfFrom_lookup _ _ 0 k Hnd Hk). reflexivity.
      * intros c Hc. apply elem_of_nil in Hc. contradiction.
    + assert (Hnd' : NoDup (names ++ [PointState.chain p])).
      { apply NoDup_app. split; [exact Hnd |]. split.
        - intros c Hc Hc'. apply list_elem_of_singleton in Hc'. subst c. contradiction.
        - apply NoDup_singleton. }
      assert (Hk : (names ++ [PointState.chain p]) !! length names
                   = Some (PointState.chain p)).
      { rewrite lookup_app_r by lia. rewrite Nat.sub_diag. reflexivity. }
      exists [PointState.chain p], (Some (Z.of_nat (length names))).
      split; [| split; [exact Hnd' | split; [exists (length names); auto |]]].
      * unfold indexOf. rewrite (indexOfFrom_lookup _ _ 0 _ Hnd' Hk). reflexivity.
      * intros c Hc. apply list_elem_of_singleton in Hc. subst c. eauto.
  - exists [], None. rewrite app_nil_r.
    split; [reflexivity |]. split; [exact Hnd |]. split; [reflexivity |].
    intros c Hc. apply elem_of_nil in Hc. contradiction.
Qed.

Lemma column_numbers (column : list (option PointState.t)) (i : nat)
    (names : list string) (ids : list (option Z)) :
  NoDup names ->
  exists ext row,
    reduceFrom chainStep i (names, ids) column = (names ++ ext, ids ++ row)
    /\ NoDup (names ++ ext)
    /\ Forall2 (numbered (names ++ ext)) column row
    /\ (forall c, c ∈ ext ->
        exists y p, column !! y = Some (Some p) /\ PointState.chain p = c).
Proof.
  revert i names ids. induction column as [|point column IH]; intros i names ids Hnd; simpl.
  - exists [], []. rewrite !app_nil_r.
    split; [reflexivity |]. split; [exact Hnd |]. split; [apply Forall2_nil_2 |].
    intros c Hc. apply elem_of_nil in Hc. contradiction.
  - destruct (chainStep_numbers names ids point i Hnd)
      as (ext1 & entry & -> & Hnd1 & Hentry & Hfrom1).
    destruct (IH (S i) (names ++ ext1) (ids ++ [entry]) Hnd1)
      as (ext2 & row & -> & Hnd2 & Hrow & Hfrom2).
    exists (ext1 ++ ext2), (entry :: row).
    rewrite <- !app_assoc in *. simpl.
    split; [reflexivity |]. split; [exact Hnd2 |]. split.
    + apply Forall2_cons; split; [| exact Hrow].
      rewrite app_assoc. apply numbered_extend. exact Hentry.
    + intros c Hc. apply elem_of_app in Hc as [Hc | Hc].
      * destruct (Hfrom1 c Hc) as (p & -> & Hp). exists 0%nat, p. auto.
      * destruct (Hfrom2 c Hc) as (y & p & Hy & Hp). exists (S y), p. auto.
Qed.

Lemma chainColumn_numbers (column : list (option PointState.t))
    (names : list string) (grid0 : list (list (option Z))) :
  NoDup names ->
  exists ext row,
    chainColumn (names, grid0) column = (names ++ ext, grid0 ++ [row])
    /\ NoDup (names ++ ext)
    /\ Forall2 (numbered (names ++ ext)) column row
    /\ (forall c, c ∈ ext ->
        exists y p, column !! y = Some (Some p) /\ PointState.chain p = c).
Proof.
  intros Hnd. unfold chainColumn, reduce. simpl.
  destruct (column_numbers column 0 names [] Hnd) as (ext & row & -> & Hnd1 & Hrow & Hfrom).
  exists ext, row. auto.
Qed.

Lemma board_numbers (b : Board) (names : list string) (grid0 : list (list (option Z))) :
  NoDup names ->
  exists ext grid,
    fold_left chainColumn b (names, grid0) = (names ++ ext, grid0 ++ grid)
    /\ NoDup (names ++ ext)
    /\ Forall2 (Forall2 (numbered (names ++ ext))) b grid
    /\ (forall c, c ∈ ext ->
        exists x y p, entryAt b x y = Some (Some p) /\ PointState.chain p = c).
Proof.
  revert names grid0. induction b as [|column b IH]; intros names grid0 Hnd; simpl.
  - exists [], []. rewrite !app_nil_r.
    split; [reflexivity |]. split; [exact Hnd |]. split; [apply Forall2_nil_2 |].
    intros c Hc. apply elem_of_nil in Hc. contradiction.
  - destruct (chainColumn_numbers column names grid0 Hnd)
      as (ext1 & row & -> & Hnd1 & Hrow & Hfrom1).
    destruct (IH (names ++ ext1) (grid0 ++ [row]) Hnd1)
      as (ext2 & grid & -> & Hnd2 & Hgrid & Hfrom2).
    exists (ext1 ++ ext2), (row :: grid).
    rewrite <- !app_assoc in *. simpl.
    split; [reflexivity |]. split; [exact Hnd2 |]. split.
    + apply Forall2_cons; split; [| exact Hgrid].
      rewrite app_assoc.
      eapply Forall2_impl; [exact Hrow |].
      intros point entry. apply numbered_extend.
    + intros c Hc. apply elem_of_app in Hc as [Hc | Hc].
      * destruct (Hfrom1 c Hc) as (y & p & Hy & Hp). exists 0%nat, y, p. auto.
      * destruct (Hfrom2 c Hc) as (x & y & p & Hxy & Hp). exists (S x), y, p. auto.
Qed.

Lemma numbered_grid_lookup (names : list string) (b : Board)
    (grid : list (list (option Z))) (x y : nat) (point : option PointState.t) :
  Forall2 (Forall2 (numbered names)) b grid ->
  entryAt b x y = Some point ->
  exists entry, entryAt grid x y = Some entry /\ numbered names point entry.
Proof.
  unfold entryAt. intros Hgrid Hpoint.
  destruct (b !! x) as [column|] eqn:Hcol; [| discriminate]. simpl in Hpoint.
  destruct (Forall2_lookup_l _ _ _ _ _ Hgrid Hcol) as (row & Hrow & Hcr).
  destruct (Forall2_lookup_l _ _ _ _ _ Hcr Hpoint) as (entry & Hentry & Hn).
  exists entry. rewrite Hrow. simpl. auto.
Qed.

(** X6. [getChains] numbers the chains of the whole board consistently and
    without gaps.  The grid has the shape of the board, an offline node has
    no number, and there is a duplicate-free list of chain names such that
    the number of every other point is the position of its chain name in
    that list; so two points, in whatever columns, show the same number
    exactly when they carry the same chain name, and every number from 0 up
    to the number of names is shown by some point.  The world is not
    changed. *)
Theorem getChains_numbers_chains (w : World) :
  exists (names : list string) (grid : list (list (option Z))),
    getChains w = (Returned grid, w)
    /\ NoDup names
    /\ Forall2 (Forall2 (numbered names)) (board (currentGame w)) grid
    /\ (forall x y, entryAt (board (currentGame w)) x y = Some None ->
                    entryAt grid x y = Some None)
    /\ (forall x1 y1 x2 y2 p q,
          entryAt (board (currentGame w)) x1 y1 = Some (Some p) ->
          entryAt (board (currentGame w)) x2 y2 = Some (Some q) ->
          exists i j, entryAt grid x1 y1 = Some (Some i)
                      /\ entryAt grid x2 y2 = Some (Some j)
                      /\ (i = j <-> PointState.chain p = PointState.chain q))
    /\ (forall k : nat, (k < length names)%nat ->
          exists x y, entryAt grid x y = Some (Some (Z.of_nat k))).
Proof.
  destruct (board_numbers (board (currentGame w)) [] [] (NoDup_nil_2))
    as (names & grid & Hfold & Hnd & Hgrid & Hfrom).
  simpl in Hfold, Hnd, Hgrid, Hfrom.
  exists names, grid.
  split; [| split; [exact Hnd | split; [exact Hgrid | split; [| split]]]].
  - unfold getChains, chainsOfBoard. run. rewrite Hfold. reflexivity.
  - intros x y Hoff.
    destruct (numbered_grid_lookup _ _ _ _ _ _ Hgrid Hoff) as (entry & He & Hn).
    simpl in Hn. subst entry. exact He.
  - intros x1 y1 x2 y2 p q Hp Hq.
    destruct (numbered_grid_lookup _ _ _ _ _ _ Hgrid Hp) as (e1 & He1 & k1 & -> & Hk1).
    destruct (numbered_grid_lookup _ _ _ _ _ _ Hgrid Hq) as (e2 & He2 & k2 & -> & Hk2).
    exists (Z.of_nat k1), (Z.of_nat k2). split; [exact He1 |]. split; [exact He2 |].
    split.
    + intros Heq. apply Nat2Z.inj in Heq. subst k2. congruence.
    + intros Heq. f_equal. rewrite <- Heq in Hk2.
      exact (NoDup_lookup _ _ _ _ Hnd Hk1 Hk2).
  - intros k Hk.
    destruct (lookup_lt_is_Some_2 names k Hk) as [c Hc].
    destruct (Hfrom c) as (x & y & p & Hxy & Hp).
    { apply list_elem_of_lookup. eauto. }
    destruct (numbered_grid_lookup _ _ _ _ _ _ Hgrid Hxy) as (e & He & k' & -> & Hk').
    exists x, y. rewrite He. do 3 f_equal.
    rewrite Hp in Hk'. exact (NoDup_lookup _ _ _ _ Hnd Hk' Hc).
Qed.

End Queries.

Section PassingProperties.
Context {engine : Engine} {scoring : Scoring}.

(** ** Passing from a script *)

(** X7. [passTurn] of the API.  When black may not move it throws and the
    session is the one before the call.  Otherwise black passes and the line
    is logged: a first pass leaves the game running and asks the opponent to
    move on the game object passed on; a pass after a pass ends the game,
    logs the final score and returns [Go.nextTurn] as it is, without asking
    the opponent. *)
Theorem apiPassTurn_second_pass_ends (s : Session) :
  let w := world s in
  let r := apiPassTurn s in
  let w' := world (snd r) in
  (~ blackMayMove (currentGame w) ->
   (exists m, fst r = Threw (ScriptError m)) /\ snd r = s)
  /\ (blackMayMove (currentGame w) -> passCount (currentGame w) = 0%nat ->
      fst r = Returned (Plain (Thinking (gameId w)))
      /\ previousPlayer (currentGame w') = Some GoColor.black
      /\ passCount (currentGame w') = 1%nat
      /\ nextTurn w' = Thinking (gameId w)
      /\ notices (snd r) = notices s ++ [TurnPassed])
  /\ (blackMayMove (currentGame w) -> (0 < passCount (currentGame w))%nat ->
      fst r = Returned (Plain (nextTurn w))
      /\ isOver (currentGame w')
      /\ nextTurn w' = nextTurn w
      /\ notices (snd r)
         = notices s ++ [TurnPassed;
                         SubnetComplete (ai (currentGame w))
                           (scoreSum (currentGame w') GoColor.white)
                           (scoreSum (currentGame w') GoColor.black)]).
Proof.
  unfold blackMayMove, isOver, apiPassTurn, handlePassTurn, logEndGame,
         getOpponentNextMove, validateTurn, passTurn, endGoGame, makeAIMove.
  destruct s as [w showing ts ns]. simpl.
  runAct. run.
  destruct (previousPlayer (currentGame w)) as [[| |]|] eqn:Hp; simpl.
  2: { split; [intros _; eauto | split; intros [H _]; congruence]. }
  3: { split; [intros _; eauto | split; intros [_ H]; congruence]. }
  all: split; [intros H; exfalso; apply H; split; congruence |].
  all: destruct (passCount (currentGame w)) as [|n] eqn:Hn; simpl.
  all: split; intros _ Hcount; try lia; try discriminate Hcount; repeat split.
  all: try lia.
  all: rewrite <- app_assoc; reflexivity.
Qed.

(** ** The pass button of the board *)

(** X8. The label of the pass button tells the state of the game: it reads
    "Waiting for opponent" exactly when the button is disabled (the opponent
    is to move), and "View Final Score" exactly when the game is over. *)
Theorem pass_button_label_tells_state (s : BoardState) :
  (getPassButtonLabel s = WaitingForOpponent <-> waitingOnAI s = true)
  /\ (getPassButtonLabel s = ViewFinalScore <-> previousPlayer s = None).
Proof.
  unfold getPassButtonLabel, endGameAvailable, manualTurnAvailable, ongoingNoAiGame,
         waitingOnAI, currentPlayer.
  destruct (previousPlayer s) as [[| |]|]; simpl;
    destruct (bool_decide (ai s = GoOpponent.none)); simpl;
    destruct (passCount s =? 0)%nat; simpl;
    repeat split; intros; try congruence; try discriminate.
Qed.

(** X9. The pass button does what it reads, but for one label.  "End Game"
    ends the game and opens the score; "View Final Score" opens the score
    and leaves the game alone; "Waiting for opponent" leaves the game alone
    and sets the timer for the opponent's turn; "Pass Turn" against an
    opponent passes for black and sets the timer; "Pass Turn (White)" passes
    for white and sets the timer.  "Pass Turn (Black)", in a game without
    opponent, passes for black and then for white as well, which ends the
    game. *)
Theorem pass_button_does_what_it_reads (w : World) :
  previousPlayer (currentGame w) <> Some GoColor.empty ->
  let r := passPlayerTurn w in
  let after := currentGame (snd r) in
  let timer := Returned (Some (TakeAiTurnIn 100 (gameId w))) in
  match getPassButtonLabel (currentGame w) with
  | EndGameLabel _ =>
      isOver after /\ scoreOpen (ui (snd r)) = true /\ fst r = Returned None
  | ViewFinalScore =>
      after = currentGame w /\ scoreOpen (ui (snd r)) = true /\ fst r = Returned None
  | WaitingForOpponent => after = currentGame w /\ fst r = timer
  | PassTurnLabel None =>
      previousPlayer after = Some GoColor.black /\ passCount after = 1%nat /\ fst r = timer
  | PassTurnLabel (Some GoColor.white) =>
      previousPlayer after = Some GoColor.white /\ passCount after = 1%nat /\ fst r = timer
  | PassTurnLabel (Some _) =>
      isOver after /\ passCount after = 2%nat
      /\ scoreOpen (ui (snd r)) = true /\ fst r = Returned None
  end.
Proof.
  intros Hcolour.
  unfold getPassButtonLabel, endGameAvailable, manualTurnAvailable, ongoingNoAiGame,
         waitingOnAI, currentPlayer, isOver.
  unfold passPlayerTurn, passTurn, endGoGame, rerender, setScoreOpen. run.
  destruct (previousPlayer (currentGame w)) as [[| |]|] eqn:Hp; simpl;
    try congruence;
    destruct (bool_decide (ai (currentGame w) = GoOpponent.none)) eqn:Hai; simpl;
    destruct (passCount (currentGame w)) as [|n] eqn:Hn; simpl;
    repeat (progress (rewrite ?Hp, ?Hn, ?Hai; simpl)); repeat split.
Qed.

(** X10. In a game without opponent one press of the pass button on black's
    turn always ends the game: black passes, then the second test of
    [passPlayerTurn] sees black as previous player and passes for white.
    No timer is set and the score opens. *)
Theorem manual_pass_for_black_ends_the_game (w : World) :
  ai (currentGame w) = GoOpponent.none ->
  previousPlayer (currentGame w) = Some GoColor.white ->
  let r := passPlayerTurn w in
  fst r = Returned None
  /\ isOver (currentGame (snd r))
  /\ (2 <= passCount (currentGame (snd r)))%nat
  /\ scoreOpen (ui (snd r)) = true.
Proof.
  intros Hai Hp.
  unfold passPlayerTurn, passTurn, endGoGame, rerender, setScoreOpen, isOver. run.
  rewrite Hp. simpl.
  destruct (passCount (currentGame w)) as [|n] eqn:Hn; simpl.
  - rewrite Hai. simpl. repeat split. lia.
  - repeat split. lia.
Qed.

(** ** A click on the board *)

(** X11. [clickHandler]: a click is refused while the previous board is
    shown, while the opponent is to move, when the game is over and when the
    validator does not accept the point for the player whose turn it is;
    then the world is the one before and exactly one toast is emitted.
    Every other click plays a router of the current player at the point,
    renders again once and emits no toast; against an opponent it requests
    the opponent's move for the game object played on. *)
Theorem clickHandler_refuses_or_plays (x y : Z) (s : Session) :
  let w := world s in
  let game := currentGame w in
  let mover := currentPlayer game in
  let validity := evaluateIfMoveIsValid game x y mover in
  let r := clickHandler x y s in
  let w' := world (snd r) in
  let refused :=
    showPriorMove s = true \/ waitingOnAI game = true \/ previousPlayer game = None
    \/ validity <> GoValidity.valid in
  fst r = Returned tt
  /\ (refused -> w' = w /\ exists t, toasts (snd r) = toasts s ++ [t])
  /\ (~ refused ->
      toasts (snd r) = toasts s
      /\ previousPlayer (currentGame w') = Some mover
      /\ board (currentGame w') = updateCaptures (placeStone (board game) x y mover) mover
      /\ renders (ui w') = S (renders (ui w))
      /\ (ai game <> GoOpponent.none -> nextTurn w' = Thinking (gameId w))).
Proof.
  destruct s as [w showing ts ns]. simpl.
  unfold clickHandler, waitingOnAI, takeAiTurn, makeMove, makeAIMove, rerender.
  runAct. run.
  destruct showing; simpl.
  { split; [reflexivity |]. split; [intros _; eauto | intros H; exfalso; apply H; auto]. }
  destruct (bool_decide (previousPlayer (currentGame w) = Some GoColor.black)
            && negb (bool_decide (ai (currentGame w) = GoOpponent.none))) eqn:Hwait; simpl.
  { split; [reflexivity |]. split; [intros _; eauto | intros H; exfalso; apply H; auto]. }
  destruct (bool_decide (previousPlayer (currentGame w) = None)) eqn:Hover; simpl.
  { apply bool_decide_eq_true in Hover.
    split; [reflexivity |]. split; [intros _; eauto | intros H; exfalso; apply H; auto]. }
  apply bool_decide_eq_false in Hover.
  destruct (decide (evaluateIfMoveIsValid (currentGame w) x y (currentPlayer (currentGame w))
                    = GoValidity.valid)) as [Hvalid | Hvalid].
  2: { rewrite bool_decide_eq_false_2 by exact Hvalid. simpl.
       split; [reflexivity |].
       split; [intros _; eauto | intros H; exfalso; apply H; auto 6]. }
  rewrite bool_decide_eq_true_2 by exact Hvalid. simpl.
  rewrite decide_True by exact Hvalid. simpl.
  destruct (bool_decide (ai (currentGame w) = GoOpponent.none)) eqn:Hai; simpl.
  - apply bool_decide_eq_true in Hai.
    split; [reflexivity |]. split.
    + intros [H | [H | [H | H]]]; congruence.
    + intros _. repeat split. intros H. contradiction.
  - split; [reflexivity |]. split.
    + intros [H | [H | [H | H]]]; congruence.
    + intros _. repeat split.
Qed.

End PassingProperties.

Section ResetAndChance.
Context {engine : Engine}.

(** ** What a reset costs *)

Lemma gameUnderWay_iff (s : BoardState) :
  gameUnderWay s = true <-> previousPlayer s <> None /\ previousBoards s <> [].
Proof.
  unfold gameUnderWay. rewrite andb_true_iff, bool_decide_eq_true, negb_true_iff.
  rewrite Nat.eqb_neq. destruct (previousBoards s); simpl; split; intros [H1 H2];
    split; try assumption; try congruence; try lia.
Qed.

(** X12. A reset touches the statistics only when it abandons a game under
    way, one that has a move in its history and is not over; then
    [resetWinstreak] is called for the opponent of the abandoned game, not
    for the new one.  This holds for [resetState] of the board and, when it
    does reset, for [resetBoardState] of the API; a refused reset leaves the
    world as it was. *)
Theorem reset_forfeits_only_a_game_under_way (w : World) :
  let forfeit :=
    if gameUnderWay (currentGame w)
    then resetWinstreak (ai (currentGame w)) false (stats w)
    else stats w in
  (forall boardSize newBoardSize newOpponent,
     stats (snd (resetState boardSize newBoardSize newOpponent w)) = forfeit)
  /\ (forall opponent boardSize,
        let r := resetBoardState logger error opponent boardSize w in
        snd r = w \/ (gameId (snd r) = S (gameId w) /\ stats (snd r) = forfeit))
  /\ (gameUnderWay (currentGame w) = true
      <-> previousPlayer (currentGame w) <> None /\ previousBoards (currentGame w) <> []).
Proof.
  intros forfeit. subst forfeit. split; [| split].
  - intros boardSize newBoardSize newOpponent.
    unfold resetState, rerender. run.
    destruct (gameUnderWay (currentGame w)); reflexivity.
  - intros opponent boardSize. unfold resetBoardState. run.
    destruct (negb (bool_decide (boardSize ∈ [5; 7; 9; 13]))
              && negb (bool_decide (opponent = GoOpponent.w0r1d_d43m0n))); simpl;
      [left; reflexivity |].
    destruct (bool_decide (opponent = GoOpponent.w0r1d_d43m0n)
              && negb (hasTheRedPill (player w))); simpl; [left; reflexivity |].
    right. destruct (gameUnderWay (currentGame w)); split; reflexivity.
  - apply gameUnderWay_iff.
Qed.

(** ** The chance a script is told *)

(** X13. With the cheat API open, [getCheatSuccessChance()] without an
    argument changes nothing and returns a chance between 0 and 1 that is
    the very threshold of the next attempt: a success roll up to it runs the
    callback of the cheat, a success roll above it never does, the attempt
    ends in an ejection or a skipped turn. *)
Theorem reported_chance_decides_next_cheat
    (callback : M unit) (so eo : option Q) (w : World) :
  cheatApiOpen (player w) ->
  exists c : Q,
    GoApi.getCheatSuccessChance None w = (Returned c, w)
    /\ (0 <= c <= 1)%Q
    /\ ((successRoll so w <= c)%Q ->
        determineCheatSuccess logger callback so eo w
        = successRun callback (gameId w) (passesCleared w))
    /\ ((c < successRoll so w)%Q ->
        determineCheatSuccess logger callback so eo w = (Returned (nextTurn w), afterEjection w)
        \/ determineCheatSuccess logger callback so eo w
           = (Returned (Thinking (gameId w)), afterSkip w)).
Proof.
  intros Hopen. exists (chanceNow w). split; [| split; [| split]].
  - unfold GoApi.getCheatSuccessChance. unfold mbind, M_bind, gets.
    rewrite checkCheatApiAccess_open by exact Hopen. reflexivity.
  - apply cheatSuccessChance_range.
  - apply determineCheatSuccess_success.
  - intros Hfail.
    destruct (Nat.eq_dec (cheatCount (currentGame w)) 0%nat) as [Hzero | Hpos].
    + right. apply skipped_world; [exact Hfail | left; exact Hzero].
    + destruct (Qlt_le_dec (ejectRoll so eo w) 0.1) as [Hlt | Hge].
      * left. apply ejected_world; [exact Hfail | lia | exact Hlt].
      * right. apply skipped_world; [exact Hfail | right; apply Qle_not_lt; exact Hge].
Qed.

End ResetAndChance.

Section AlertProperties.
Import AlertManager.
Context {hashing : Hashing}.

(** ** The queue of alerts *)

Lemma existsb_hash (h : string) (old : list Alert) :
  existsb (fun a => bool_decide (hash a = h)) old = true <-> h ∈ hash <$> old.
Proof.
  induction old as [|a old IH]; simpl.
  - split; [discriminate | intros H; apply elem_of_nil in H; contradiction].
  - rewrite orb_true_iff, IH, bool_decide_eq_true, elem_of_cons.
    split; intros [H | H]; auto.
Qed.

Lemma receive_cases (now : string) (t : Text) (old : list Alert) :
  (getMessageHash now t ∈ hash <$> old /\ receive now t old = old)
  \/ ((getMessageHash now t ∉ hash <$> old)
      /\ receive now t old = old ++ [mkAlert t (getMessageHash now t)]).
Proof.
  unfold receive.
  destruct (existsb _ old) eqn:He.
  - left. split; [apply existsb_hash; exact He | reflexivity].
  - right. split; [| reflexivity].
    intros Hin. apply existsb_hash in Hin. congruence.
Qed.

(** X14. The hashes of the queue stay pairwise different: receiving an
    alert, closing the one shown and emptying the queue with Escape (or
    pressing any other key) all keep them so. *)
Theorem alert_hashes_stay_distinct (now : string) (t : Text) (code : string) (old : list Alert) :
  distinctHashes old ->
  distinctHashes (receive now t old)
  /\ distinctHashes (close old)
  /\ distinctHashes (handle code old).
Proof.
  unfold distinctHashes. intros Hnd. split; [| split].
  - destruct (receive_cases now t old) as [[_ ->] | [Hnew ->]]; [exact Hnd |].
    rewrite fmap_app. apply NoDup_app. split; [exact Hnd |]. split.
    + intros h Hh Hh'. simpl in Hh'. apply list_elem_of_singleton in Hh'. subst h.
      contradiction.
    + simpl. apply NoDup_singleton.
  - unfold close. destruct old as [|a old]; simpl; [exact Hnd |].
    rewrite drop_0. simpl in Hnd. apply NoDup_cons in Hnd as [_ Hnd]. exact Hnd.
  - unfold handle. case_bool_decide; [apply NoDup_nil_2 | exact Hnd].
Qed.

(** An alert just received is pending under the hash of its reception. *)
Lemma received_is_pending (now : string) (t : Text) (old : list Alert) :
  getMessageHash now t ∈ hash <$> receive now t old.
Proof.
  destruct (receive_cases now t old) as [[Hin ->] | [_ ->]]; [exact Hin |].
  rewrite fmap_app. apply elem_of_app. right.
  simpl. apply list_elem_of_singleton. reflexivity.
Qed.

(** The hash reads the clock only for an element whose props cannot be
    converted, and then it is the hash of the time stamp. *)
Lemma getMessageHash_clock (now now' : string) (t : Text) :
  (clockFree t -> getMessageHash now' t = getMessageHash now t)
  /\ (~ clockFree t -> getMessageHash now t = cyrb53 now).
Proof.
  destruct t as [s | props]; simpl.
  - split; [reflexivity | intros Hno; exfalso; apply Hno; exact I].
  - destruct (stringify props) as [json |].
    + split; [reflexivity | intros Hno; exfalso; apply Hno; eexists; reflexivity].
    + split; [intros [json Hjson]; discriminate Hjson | reflexivity].
Qed.

(** X15. Alerts are queued in order, and once per hash.  An alert received
    at time stamp [now] is added at the end of the queue, and only when no
    pending alert has its hash, so the alert shown does not change while it
    is open.  The same alert received again at time stamp [now'] changes
    nothing exactly when its hash is that of a pending alert; this is so
    whenever the two hashes agree, as they do for a string and for an element
    whose props can be converted.  For an element whose props cannot be
    converted the hash is that of the time stamp, and when no pending alert
    has the new hash the same alert is queued a second time.  Once the only
    alert is closed the same alert is queued anew. *)
Theorem alerts_are_queued_once_and_in_order (now now' : string) (t : Text) (old : list Alert) :
  (exists added, receive now t old = old ++ added
                 /\ (added = [] \/ added = [mkAlert t (getMessageHash now t)])
                 /\ (added = [] <-> getMessageHash now t ∈ hash <$> old))
  /\ (old <> [] -> alertMessage (receive now t old) = alertMessage old)
  /\ (getMessageHash now' t ∈ hash <$> receive now t old ->
      receive now' t (receive now t old) = receive now t old)
  /\ (getMessageHash now' t ∉ hash <$> receive now t old ->
      receive now' t (receive now t old)
      = receive now t old ++ [mkAlert t (getMessageHash now' t)])
  /\ (getMessageHash now' t = getMessageHash now t ->
      receive now' t (receive now t old) = receive now t old)
  /\ (clockFree t -> getMessageHash now' t = getMessageHash now t)
  /\ (~ clockFree t ->
      getMessageHash now t = cyrb53 now /\ getMessageHash now' t = cyrb53 now')
  /\ receive now' t (close (receive now t [])) = [mkAlert t (getMessageHash now' t)].
Proof.
  split; [| split; [| split; [| split; [| split; [| split; [| split]]]]]].
  - destruct (receive_cases now t old) as [[Hin ->] | [Hnew ->]].
    + exists []. rewrite app_nil_r. split; [reflexivity |]. split; [auto |]. tauto.
    + eexists. split; [reflexivity |]. split; [auto |].
      split; [discriminate | contradiction].
  - intros Hne. destruct (receive_cases now t old) as [[_ ->] | [_ ->]]; [reflexivity |].
    destruct old as [|a old]; [contradiction | reflexivity].
  - intros Hin.
    destruct (receive_cases now' t (receive now t old)) as [[_ Heq] | [Hnew _]];
      [exact Heq | contradiction].
  - intros Hnew.
    destruct (receive_cases now' t (receive now t old)) as [[Hin _] | [_ Heq]];
      [contradiction | exact Heq].
  - intros Hsame.
    destruct (receive_cases now' t (receive now t old)) as [[_ Heq] | [Hnew _]];
      [exact Heq |].
    exfalso. apply Hnew. rewrite Hsame. apply received_is_pending.
  - apply getMessageHash_clock.
  - intros Hclock. split.
    + apply (getMessageHash_clock now now' t). exact Hclock.
    + apply (getMessageHash_clock now' now t). exact Hclock.
  - reflexivity.
Qed.

End AlertProperties.

(** ** Further sample runs *)

(** A newcomer calls the cheat API with a point far off the board. *)
Lemma cheat_api_is_locked_witness :
  ~ cheatApiOpen (player SampleScore.locked)
  /\ NetscriptGo.removeRouter 9 9 SampleScore.locked
     = (Threw (ScriptError CheatApiLocked), SampleScore.locked).
Proof.
  assert (Hlocked : ~ cheatApiOpen (player SampleScore.locked)).
  { unfold cheatApiOpen. simpl. lia. }
  split; [exact Hlocked |].
  destruct (cheat_api_is_locked 9 9 0 0 None SampleScore.locked Hlocked)
    as (_ & _ & Hremove & _).
  exact Hremove.
Defined.

(** The pass button on the first turn of a game played by hand. *)
Lemma pass_button_does_what_it_reads_witness :
  previousPlayer (currentGame SampleScore.manual) <> Some GoColor.empty
  /\ getPassButtonLabel (currentGame SampleScore.manual) = PassTurnLabel (Some GoColor.black)
  /\ isOver (currentGame (snd (passPlayerTurn SampleScore.manual))).
Proof.
  assert (Hcolour : previousPlayer (currentGame SampleScore.manual) <> Some GoColor.empty)
    by discriminate.
  split; [exact Hcolour |]. split; [reflexivity |].
  pose proof (pass_button_does_what_it_reads SampleScore.manual Hcolour) as Hpress.
  simpl in Hpress. destruct Hpress as [Hover _]. exact Hover.
Defined.

Lemma manual_pass_for_black_ends_the_game_witness :
  ai (currentGame SampleScore.manual) = GoOpponent.none
  /\ previousPlayer (currentGame SampleScore.manual) = Some GoColor.white
  /\ fst (passPlayerTurn SampleScore.manual) = Returned None
  /\ scoreOpen (ui (snd (passPlayerTurn SampleScore.manual))) = true.
Proof.
  split; [reflexivity |]. split; [reflexivity |].
  destruct (manual_pass_for_black_ends_the_game SampleScore.manual eq_refl eq_refl)
    as (Hresult & _ & _ & Hscore).
  split; [exact Hresult | exact Hscore].
Defined.

(** The chance told on [Sample.midgame] is 0.408; a roll of 0.4 succeeds. *)
Lemma reported_chance_decides_next_cheat_witness :
  cheatApiOpen (player Sample.midgame)
  /\ exists c : Q,
       GoApi.getCheatSuccessChance None Sample.midgame = (Returned c, Sample.midgame)
       /\ (0 <= c <= 1)%Q.
Proof.
  assert (Hopen : cheatApiOpen (player Sample.midgame)).
  { left. simpl. lia. }
  split; [exact Hopen |].
  destruct (reported_chance_decides_next_cheat (mret tt) (Some 0.4%Q) None Sample.midgame Hopen)
    as (c & Hc & Hrange & _).
  exists c. split; [exact Hc | exact Hrange].
Defined.

Lemma alert_hashes_stay_distinct_witness :
  AlertManager.distinctHashes SampleScore.pending
  /\ AlertManager.distinctHashes
       (AlertManager.receive "12:00" (AlertManager.Str "saved") SampleScore.pending).
Proof.
  assert (Hnd : AlertManager.distinctHashes SampleScore.pending).
  { unfold AlertManager.distinctHashes. simpl.
    apply NoDup_cons. split; [| apply NoDup_singleton].
    intros Hin. apply list_elem_of_singleton in Hin. discriminate Hin. }
  split; [exact Hnd |].
  destruct (alert_hashes_stay_distinct "12:00" (AlertManager.Str "saved") "Escape"
              SampleScore.pending Hnd) as [Hreceive _].
  exact Hreceive.
Defined.

(** An element whose props are circular, received at 12:00 and again at
    12:01, is queued twice; a string received at both times is queued once. *)
Lemma alerts_are_queued_once_and_in_order_witness :
  let crash := AlertManager.Element "crash" in
  let saved := AlertManager.Str "saved" in
  ~ @AlertManager.clockFree SampleHash.circular crash
  /\ @AlertManager.receive SampleHash.circular "12:01" crash
       (@AlertManager.receive SampleHash.circular "12:00" crash [])
     = [AlertManager.mkAlert crash "12:00"; AlertManager.mkAlert crash "12:01"]
  /\ @AlertManager.clockFree SampleHash.hashing saved
  /\ AlertManager.receive "12:01" saved (AlertManager.receive "12:00" saved [])
     = [AlertManager.mkAlert saved "saved"].
Proof.
  intros crash saved.
  destruct (@alerts_are_queued_once_and_in_order SampleHash.circular
              "12:00" "12:01" crash [])
    as (_ & _ & _ & Htwice & _).
  destruct (@alerts_are_queued_once_and_in_order SampleHash.hashing
              "12:00" "12:01" saved [])
    as (_ & _ & _ & _ & Honce & Hfree & _).
  split; [| split; [| split]].
  - intros [json Hjson]. discriminate Hjson.
  - apply Htwice. simpl. intros Hin.
    apply list_elem_of_singleton in Hin. discriminate Hin.
  - exact I.
  - apply Honce. apply Hfree. exact I.
Defined.

Example apiPassTurn_on_start :
  let r := apiPassTurn (SampleScore.session Sample.start) in
  fst r = Returned (Plain (Thinking 0))
  /\ notices (snd r) = [TurnPassed]
  /\ passCount (currentGame (world (snd r))) = 1%nat.
Proof. vm_compute. repeat split. Qed.

Example clickHandler_on_router :
  let r := clickHandler 2 2 (SampleScore.session Sample.midgame) in
  toasts (snd r) = [mkToast (InvalidMoveToast GoValidity.pointNotEmpty) ERROR 2000]
  /\ world (snd r) = Sample.midgame.
Proof. vm_compute. repeat split. Qed.

Example clickHandler_on_empty_point :
  let r := clickHandler 1 1 (SampleScore.session Sample.midgame) in
  toasts (snd r) = []
  /\ boardString (board (currentGame (world (snd r)))) = "......X.....X............"
  /\ nextTurn (world (snd r)) = Thinking 0.
Proof. vm_compute. repeat split. Qed.

Example getChains_on_three_chains :
  let point c := Some (PointState.mk GoColor.black c None 0 0) in
  let b := [[point "b"; None; point "a"]; [point "a"; point "c"; point "b"]] in
  fst (getChains (updGame (setBoard b) Sample.start))
  = Returned [[Some 0; None; Some 1]; [Some 1; Some 2; Some 0]].
Proof. vm_compute. reflexivity. Qed.

Example entry_point_on_offline_column :
  fst (NetscriptGo.destroyNode 1 7 Sample.midgame)
  = Threw (ScriptError (InvalidRow 7 4)).
Proof. vm_compute. reflexivity. Qed.
